(** * django-moderation: the admin integration (moderation/admin.py)

    A shallow embedding of [moderation/admin.py]: the message shown for a
    moderation status, the moderators' default queryset, the bulk actions,
    the action table, the filter registry entry and the change view of
    [ModeratedObjectAdmin].

    Python values are modelled as the code uses them: a status or state is
    an integer ([Z]), [None] is [None] of an [option], text is [string],
    a dict is a [gmap], a list or an evaluated queryset is a [list].
    Code that raises is modelled in a state-and-exception monad whose
    failures keep the state reached when the exception was raised. *)

From Stdlib Require Import ZArith String Ascii List.
From Stdlib Require DecimalString DecimalZ DecimalPos.
From stdpp Require Import base option list gmap strings fin_maps.

Local Open Scope Z_scope.
Local Open Scope string_scope.
Local Open Scope list_scope.

(** ** Python helpers *)

(** [unicode(x)] for a value that is [None] or text. *)
Definition py_str (x : option string) : string :=
  match x with
  | None => "None"
  | Some s => s
  end.

(** [template % args] for a template whose only conversions are [%s]: the
    conversions are replaced, left to right, by the arguments. The
    templates of this file have as many conversions as arguments. *)
Fixpoint percent_format (template : string) (args : list string) : string :=
  match template with
  | EmptyString => EmptyString
  | String c rest =>
      match rest, args with
      | String d rest', arg :: args' =>
          if (Ascii.eqb c "%" && Ascii.eqb d "s")%bool
          then arg +:+ percent_format rest' args'
          else String c (percent_format rest args)
      | _, _ => String c (percent_format rest args)
      end
  end.

(** [ugettext_lazy] with no translation catalogue active: the message id. *)
Definition ugettext_lazy (msgid : string) : string := msgid.

(** [needle in haystack] on text, as a proposition. *)
Definition occurs_in (needle haystack : string) : Prop :=
  exists before after, haystack = before +:+ needle +:+ after.

(** [l.insert(i, x)] for [0 <= i]: beyond the end it appends. *)
Definition py_list_insert {A} (i : nat) (x : A) (l : list A) : list A :=
  take i l ++ x :: drop i l.

(** ** Exceptions and the monad of stateful code *)

Inductive exn :=
| KeyError (key : string)
| ValidationError
| DoesNotExist (model : string)
| MultipleObjectsReturned (model : string)
| RegistrationError
| PermissionDenied
| Http404.

#[export] Instance exn_eq_dec : EqDecision exn.
Proof. solve_decision. Defined.

(** What a call leaves behind: a value or an exception, and in both cases
    the state it reached. An exception does not undo earlier writes. *)
Inductive outcome (S A : Type) :=
| Returns (a : A) (s : S)
| Raises (e : exn) (s : S).
Arguments Returns {S A} a s.
Arguments Raises {S A} e s.

Definition final_state {S A} (o : outcome S A) : S :=
  match o with
  | Returns _ s => s
  | Raises _ s => s
  end.

Definition ST (S A : Type) : Type := S -> outcome S A.

#[export] Instance ST_ret {S} : MRet (ST S) := fun A a s => Returns a s.

#[export] Instance ST_bind {S} : MBind (ST S) := fun A B f c s =>
  match c s with
  | Returns a s' => f a s'
  | Raises e s' => Raises e s'
  end.

Definition raise {S A} (e : exn) : ST S A := fun s => Raises e s.

(** The object the state stands for, as a value. *)
Definition get_state {S} : ST S S := fun s => Returns s s.

(** [try: body / except E: handler], where [catch e] is the handler of the
    clause that matches [e], if any. *)
Definition try_except {S A} (body : ST S A) (catch : exn -> option (ST S A))
  : ST S A := fun s =>
  match body s with
  | Returns a s' => Returns a s'
  | Raises e s' =>
      match catch e with
      | Some handler => handler s'
      | None => Raises e s'
      end
  end.

(** [for x in xs: body]. *)
Fixpoint for_each {S A} (xs : list A) (body : A -> ST S unit) : ST S unit :=
  match xs with
  | [] => mret tt
  | x :: xs' => body x ;; for_each xs' body
  end.

(** [d[key]] on a dict. *)
Definition py_getitem {S A} (d : gmap string A) (key : string) : ST S A :=
  match d !! key with
  | Some v => mret v
  | None => raise (KeyError key)
  end.

(** [del d[key]], the dict being the state. *)
Definition py_delitem {A} (key : string) : ST (gmap string A) unit := fun d =>
  match d !! key with
  | Some _ => Returns tt (delete key d)
  | None => Raises (KeyError key) d
  end.

(** [manager.get(...)]: the one row that satisfies the lookup. *)
Definition manager_get {S A} (model : string) (lookup : A -> bool)
    (rows : list A) : ST S A :=
  match List.filter lookup rows with
  | [] => raise (DoesNotExist model)
  | [row] => mret row
  | _ => raise (MultipleObjectsReturned model)
  end.

(** ** The model layer the admin reads (moderation/models.py) *)

Definition User := string.

(** A moderated domain object: its model class, primary key and the values
    of its fields in declaration order. *)
Record ModelInstance := {
  model_class : string;
  instance_pk : Z;
  field_values : list (string * string)
}.

(** A row of [ModeratedObject]. *)
Record ModeratedObject := {
  pk : Z;
  content_type : string;
  object_pk : Z;
  changed_object : ModelInstance;
  moderation_status : Z;
  moderation_state : Z;
  moderation_reason : option string;
  moderated_by : option User;
  moderation_date : option Z;
  date_created : Z
}.

#[export] Instance ModelInstance_eq_dec : EqDecision ModelInstance.
Proof. solve_decision. Defined.

#[export] Instance ModeratedObject_eq_dec : EqDecision ModeratedObject.
Proof. solve_decision. Defined.

Definition ModeratedObject_model : string := "moderation.ModeratedObject".

(** The registered policy of a model class. *)
Record Moderator := {
  visible_until_rejected : bool;
  fields_exclude : list string
}.

(** The tables and the clock. *)
Record Database := {
  moderated_objects : list ModeratedObject;
  model_objects : list ModelInstance;
  now : Z
}.

(** ** The request *)

Record Request := {
  user : User;
  method : string;
  POST : gmap string string
}.

Inductive Level := INFO.

(** A message handed to [django.contrib.messages] for the request. The text
    is whatever value the caller passed, [None] included. *)
Definition Message : Type := Level * option string.

(** ** Calls made on the model layer

    A trace of the calls the admin makes on [ModeratedObject] instances and
    on the change-set computer, in the order they are made. It is written
    only by [call_method] and [call_get_changes] below. *)

Inductive Method := Approve | Reject | SetAsPending.

Inductive Call :=
| MethodCall (name : Method) (self : ModeratedObject) (moderated_by : User)
             (reason : option string)
| DiffCall (old_object new_object : ModelInstance) (exclude : list string).

#[export] Instance Method_eq_dec : EqDecision Method.
Proof. solve_decision. Defined.

#[export] Instance Call_eq_dec : EqDecision Call.
Proof. solve_decision. Defined.

Record State := {
  db : Database;
  request_messages : list Message;
  trace : list Call
}.

Definition M (A : Type) : Type := ST State A.

Definition set_db (d : Database) (st : State) : State :=
  {| db := d; request_messages := request_messages st; trace := trace st |}.

Definition lift_db {A} (c : ST Database A) : M A := fun st =>
  match c (db st) with
  | Returns a d => Returns a (set_db d st)
  | Raises e d => Raises e (set_db d st)
  end.

(** The part of the state the framework's own views see. *)
Definition World : Type := Database * list Message.

Definition set_world (w : World) (st : State) : State :=
  {| db := fst w; request_messages := snd w; trace := trace st |}.

Definition lift_world {A} (c : ST World A) : M A := fun st =>
  match c (db st, request_messages st) with
  | Returns a w => Returns a (set_world w st)
  | Raises e w => Raises e (set_world w st)
  end.

Definition log (c : Call) : M unit := fun st =>
  Returns tt {| db := db st; request_messages := request_messages st;
                trace := trace st ++ [c] |}.

(** [messages.add_message(request, level, message)]. *)
Definition add_message (request : Request) (level : Level)
    (message : option string) : M unit := fun st =>
  Returns tt {| db := db st;
                request_messages := request_messages st ++ [(level, message)];
                trace := trace st |}.

(** [ModelAdmin.message_user(request, message)]. *)
Definition message_user (request : Request) (message : option string) : M unit :=
  add_message request INFO message.

(** ** What admin.py imports *)

(** The constants of [moderation.models]; their values are not part of the
    admin module. *)
Class ModerationConstants := {
  MODERATION_STATUS_PENDING : Z;
  MODERATION_STATUS_REJECTED : Z;
  MODERATION_STATUS_APPROVED : Z;
  MODERATION_DRAFT_STATE : Z
}.

(** One field of a change set: the old and the new value. *)
Definition Change : Type := string * string.

(** The methods of [ModeratedObject], the moderator registry
    ([moderation.get_moderator]) and the change-set computer
    ([moderation.diff]) as the admin calls them. A [reason] of [None] is a
    call that passes no reason. *)
Class ModelLayer := {
  approve : ModeratedObject -> User -> option string -> ST Database (option string);
  reject : ModeratedObject -> User -> option string -> ST Database (option string);
  set_as_pending : ModeratedObject -> User -> ST Database (option string);
  get_object_for_this_type : ModeratedObject -> ST Database ModelInstance;
  get_moderator : string -> ST Database Moderator;
  get_changes_between_models :
    ModelInstance -> ModelInstance -> list string -> list (string * Change)
}.

(** The response of a view. *)
Record ExtraContext := {
  changes : list Change;
  old_object : ModelInstance;
  new_object : ModelInstance;
  django_version : string;
  object_admin_url : option string
}.

Inductive Response :=
| HttpResponseRedirect (url : string)
| TemplateResponse (template : string) (context : ExtraContext).

(** What the admin uses of Django: permissions, the generated form
    ([None] when it is not valid, its [cleaned_data] otherwise), the content
    type of a model class, URL reversal ([None] for [NoReverseMatch]) and
    the version. *)
Class AdminFramework := {
  has_change_permission : Request -> option ModeratedObject -> bool;
  admin_form_clean : Request -> ModeratedObject -> option (gmap string string);
  get_for_model : string -> string * string;
  reverse : string -> Z -> option string;
  get_version : string
}.

(** [super(ModeratedObjectAdmin, self).change_view]: the change view the
    admin class inherits from [admin.ModelAdmin]. *)
Class InheritedAdmin := {
  ModelAdmin_change_view : Request -> Z -> ExtraContext -> ST World Response
}.

(** ** admin.py: the bulk actions *)

Section BulkActions.
Context `{ModelLayer}.

(** A method call on a [ModeratedObject]: noted in the trace, then run
    against the database. *)
Definition call_method (name : Method) (self : ModeratedObject)
    (moderated_by : User) (reason : option string) : M (option string) :=
  log (MethodCall name self moderated_by reason) ;;
  lift_db match name with
          | Approve => approve self moderated_by reason
          | Reject => reject self moderated_by reason
          | SetAsPending => set_as_pending self moderated_by
          end.

Definition approve_objects (request : Request)
    (queryset : list ModeratedObject) : M unit :=
  for_each queryset (fun obj =>
    moderation_message ← call_method Approve obj (user request) None;
    add_message request INFO moderation_message).

Definition reject_objects (request : Request)
    (queryset : list ModeratedObject) : M unit :=
  for_each queryset (fun obj =>
    moderation_message ← call_method Reject obj (user request) None;
    add_message request INFO moderation_message).

Definition set_objects_as_pending (request : Request)
    (queryset : list ModeratedObject) : M unit :=
  for_each queryset (fun obj =>
    call_method SetAsPending obj (user request) None ;; mret tt).

End BulkActions.

(** ** admin.py: class ModerationAdmin *)

Module ModerationAdmin.
Section Methods.
Context `{ModerationConstants} `{ModelLayer}.

(** The result is [None] when the function falls off its last [elif]. *)
Definition get_moderation_message
    (moderation_status : option Z) (reason : option string)
    (visible_until_rejected : bool) : option string :=
  if decide (moderation_status = Some MODERATION_STATUS_PENDING) then
    if visible_until_rejected then
      Some (ugettext_lazy
        "Object is viewable on site, it will be removed if moderator rejects it")
    else
      Some (ugettext_lazy
        "Object is not viewable on site, it will be visible if moderator accepts it")
  else if decide (moderation_status = Some MODERATION_STATUS_REJECTED) then
    Some (percent_format
            (ugettext_lazy "Object has been rejected by moderator, reason: %s")
            [py_str reason])
  else if decide (moderation_status = Some MODERATION_STATUS_APPROVED) then
    Some (ugettext_lazy
      "Object has been approved by moderator and is visible on site")
  else if decide (moderation_status = None) then
    Some (ugettext_lazy
      "This object is not registered with the moderation system.")
  else None.

(** [self.model.unmoderated_objects.get(pk=object_id)]: the manager over
    every row of the admin's model. *)
Definition unmoderated_objects_get (model : string) (object_id : Z)
  : ST Database ModelInstance := fun d =>
  manager_get model
    (fun o => bool_decide (model_class o = model ∧ instance_pk o = object_id))
    (model_objects d) d.

(** Modelled from the spec: [ModeratedObject.objects.get_for_instance]
    (moderation/managers.py is not among the sources). The persistence
    collaborator gets the moderated entity keyed by domain type and
    domain id; by the handler in [send_message] a missing one is
    [ModeratedObject.DoesNotExist]. *)
Definition get_for_instance (instance : ModelInstance)
  : ST Database ModeratedObject := fun d =>
  manager_get ModeratedObject_model
    (fun mo => bool_decide (content_type mo = model_class instance
                            ∧ object_pk mo = instance_pk instance))
    (moderated_objects d) d.

(** [model] is [self.model]. *)
Definition send_message (model : string) (request : Request)
    (object_id : Z) : M unit :=
  msg ← try_except
    (obj ← lift_db (unmoderated_objects_get model object_id);
     moderated_obj ← lift_db (get_for_instance obj);
     moderator ← lift_db (get_moderator (content_type moderated_obj));
     mret (get_moderation_message
             (Some (moderation_status moderated_obj))
             (moderation_reason moderated_obj)
             (visible_until_rejected moderator)))
    (fun e =>
       if decide (e = DoesNotExist ModeratedObject_model)
       then Some (mret (get_moderation_message None None false))
       else None);
  message_user request msg.

End Methods.
End ModerationAdmin.

(** ** admin.py: the filter registry entry *)

(** A model field, with its [restricted_status_filter] attribute when it
    has one. *)
Record Field := {
  field_name : string;
  restricted_status_filter : option bool
}.

Inductive FilterSpecClass :=
| RestrictedStatusFilterSpec
| BuiltinFilterSpec (name : string).

#[export] Instance FilterSpecClass_eq_dec : EqDecision FilterSpecClass.
Proof. solve_decision. Defined.

(** An entry of [FilterSpec.filter_specs]: a test on the field and the
    filter class built when the test accepts. *)
Definition FilterSpecEntry : Type := (Field -> bool) * FilterSpecClass.

(** [lambda f: getattr(f, 'restricted_status_filter', False)]. *)
Definition restricted_status_test (f : Field) : bool :=
  default false (restricted_status_filter f).

(** The statement run when the module is loaded:
    [FilterSpec.filter_specs.insert(0, (test, RestrictedStatusFilterSpec))]. *)
Definition register_filter_spec (filter_specs : list FilterSpecEntry)
  : list FilterSpecEntry :=
  py_list_insert 0 (restricted_status_test, RestrictedStatusFilterSpec)
                 filter_specs.

(** The entries that build the restricted filter. *)
Definition restricted_entries (filter_specs : list FilterSpecEntry)
  : list FilterSpecEntry :=
  List.filter (fun entry => bool_decide (snd entry = RestrictedStatusFilterSpec))
              filter_specs.

(** ** admin.py: class ModeratedObjectAdmin *)

Module ModeratedObjectAdmin.
Section Methods.
Context `{ModerationConstants} `{ModelLayer} `{AdminFramework}
        `{InheritedAdmin}.

(** The dict returned by the inherited [get_actions] is the state. *)
Definition get_actions {A} : ST (gmap string A) (gmap string A) :=
  try_except (py_delitem "delete_selected")
             (fun e => match e with
                       | KeyError _ => Some (mret tt)
                       | _ => None
                       end) ;;
  get_state.

(** [qs.exclude(column=value)] on rows whose columns are not null. *)
Definition exclude {A} (column : A -> Z) (value : Z) (qs : list A) : list A :=
  List.filter (fun row => negb (bool_decide (column row = value))) qs.

(** [base] is the inherited queryset. *)
Definition queryset (base : list ModeratedObject) : list ModeratedObject :=
  let qs := base in
  let qs := exclude moderation_status MODERATION_STATUS_APPROVED qs in
  exclude moderation_state MODERATION_DRAFT_STATE qs.

Definition response_change {A} (request : Request) (obj : A) : Response :=
  if has_change_permission request None
  then HttpResponseRedirect "../"
  else HttpResponseRedirect "../../../".

(** [ModeratedObject.objects.get(pk=object_id)]. *)
Definition objects_get (object_id : Z) : ST Database ModeratedObject :=
  fun d =>
  manager_get ModeratedObject_model
    (fun mo => bool_decide (pk mo = object_id)) (moderated_objects d) d.

(** [get_changes_between_models(old, new, exclude).values()], noted in
    the trace. *)
Definition call_get_changes (old_object new_object : ModelInstance)
    (exclude : list string) : M (list Change) :=
  log (DiffCall old_object new_object exclude) ;;
  mret (map snd (get_changes_between_models old_object new_object exclude)).

(** The [if request.POST:] block. [Some response] is the [return] inside
    it, [None] falls through to the rest of the view. *)
Definition change_view_post (request : Request)
    (moderated_object : ModeratedObject) (new_object : ModelInstance)
  : M (option Response) :=
  if bool_decide (POST request ≠ ∅) then
    match admin_form_clean request moderated_object with
    | Some cleaned_data =>
        reason ← py_getitem cleaned_data "moderation_reason";
        if bool_decide (is_Some (POST request !! "approve")) then
          moderation_message ←
            call_method Approve moderated_object (user request) (Some reason);
          add_message request INFO moderation_message ;;
          mret (Some (response_change request new_object))
        else if bool_decide (is_Some (POST request !! "reject")) then
          moderation_message ←
            call_method Reject moderated_object (user request) (Some reason);
          add_message request INFO moderation_message ;;
          mret None
        else mret None
    | None => mret None
    end
  else mret None.

(** The context of the change form: the dict built at the end of
    [change_view], a failed URL reversal giving [None]. *)
Definition build_extra_context (changed_object old_object new_object
    : ModelInstance) (changes : list Change) : ExtraContext :=
  let content_type := get_for_model (model_class changed_object) in
  let object_admin_url :=
    reverse (percent_format "admin:%s_%s_change"
                            [fst content_type; snd content_type])
            (instance_pk changed_object) in
  {| changes := changes;
     old_object := old_object;
     new_object := new_object;
     django_version := substring 0 3 get_version;
     object_admin_url := object_admin_url |}.

Definition change_view (request : Request) (object_id : Z) : M Response :=
  moderated_object ← lift_db (objects_get object_id);
  let changed_object := changed_object moderated_object in
  moderator ← lift_db (get_moderator (model_class changed_object));
  '(old_object, new_object) ←
    (if visible_until_rejected moderator then
       new_object ← lift_db (get_object_for_this_type moderated_object);
       mret (changed_object, new_object)
     else
       old_object ← lift_db (get_object_for_this_type moderated_object);
       mret (old_object, changed_object));
  changes ← call_get_changes old_object new_object (fields_exclude moderator);
  returned ← change_view_post request moderated_object new_object;
  match returned with
  | Some response => mret response
  | None =>
      lift_world
        (ModelAdmin_change_view request object_id
           (build_extra_context changed_object old_object new_object
                                changes))
  end.

End Methods.
End ModeratedObjectAdmin.

(** ** The state machine of moderation/models.py, from the specification *)

Module ModelsSpec.
Section Transitions.
Context `{ModerationConstants}.

(** The text of the message a transition returns; the specification
    does not fix it. *)
Variable confirmation_message : ModeratedObject -> option string.

(** The policies registered per model class. *)
Variable registry : gmap string Moderator.

(** [self.save()]: the row with this primary key is replaced, or added. *)
Definition save (self : ModeratedObject) (d : Database) : Database :=
  {| moderated_objects :=
       if existsb (fun row => bool_decide (pk row = pk self))
                  (moderated_objects d)
       then map (fun row => if bool_decide (pk row = pk self)
                            then self else row) (moderated_objects d)
       else moderated_objects d ++ [self];
     model_objects := model_objects d;
     now := now d |}.

Definition moderate (self : ModeratedObject) (status : Z)
    (moderator : option User) (date : option Z) (reason : option string)
  : ModeratedObject :=
  {| pk := pk self;
     content_type := content_type self;
     object_pk := object_pk self;
     changed_object := changed_object self;
     moderation_status := status;
     moderation_state := moderation_state self;
     moderation_reason := reason;
     moderated_by := moderator;
     moderation_date := date;
     date_created := date_created self |}.

(** A reason that is [None] (not passed) or the empty text. *)
Definition reason_is_empty (reason : option string) : bool :=
  bool_decide (default "" reason = "").

(** Modelled from the spec: [ModeratedObject.approve]
    (moderation/models.py is not among the sources).
    [approve(actor, reason="")] sets status=Approved, moderator=actor,
    decidedAt=now, reason=reason and produces a confirmation message. *)
Definition approve (self : ModeratedObject) (actor : User)
    (reason : option string) : ST Database (option string) := fun d =>
  let self' := moderate self MODERATION_STATUS_APPROVED (Some actor)
                        (Some (now d)) (Some (default "" reason)) in
  Returns (confirmation_message self') (save self' d).

(** Modelled from the spec: [ModeratedObject.reject]
    (moderation/models.py is not among the sources).
    [reject(actor, reason)] fails with [ValidationError] if [reason] is
    empty; otherwise it sets status=Rejected, moderator=actor,
    decidedAt=now and the reason. *)
Definition reject (self : ModeratedObject) (actor : User)
    (reason : option string) : ST Database (option string) := fun d =>
  if reason_is_empty reason then Raises ValidationError d
  else
    let self' := moderate self MODERATION_STATUS_REJECTED (Some actor)
                          (Some (now d)) reason in
    Returns (confirmation_message self') (save self' d).

(** Modelled from the spec: [ModeratedObject.set_as_pending]
    (moderation/models.py is not among the sources).
    [setPending(actor)] resets status to Pending and clears decidedAt;
    it is allowed from any state. *)
Definition set_as_pending (self : ModeratedObject) (actor : User)
  : ST Database (option string) := fun d =>
  let self' := moderate self MODERATION_STATUS_PENDING (moderated_by self)
                        None (moderation_reason self) in
  Returns (confirmation_message self') (save self' d).

(** Modelled from the spec: [ModeratedObject.get_object_for_this_type]
    (moderation/models.py is not among the sources): the domain object
    the entity refers to, by type and id. *)
Definition get_object_for_this_type (self : ModeratedObject)
  : ST Database ModelInstance := fun d =>
  manager_get (content_type self)
    (fun o => bool_decide (model_class o = content_type self
                           ∧ instance_pk o = object_pk self))
    (model_objects d) d.

(** Modelled from the spec: [moderation.get_moderator]
    (moderation/register.py is not among the sources): the registered
    policy of the type, or a failure when the type has none. *)
Definition get_moderator (model : string) : ST Database Moderator :=
  match registry !! model with
  | Some moderator => mret moderator
  | None => raise RegistrationError
  end.

(** Modelled from the spec: [get_changes_between_models]
    (moderation/diff.py is not among the sources): for every field that
    is not excluded and whose values differ, in declared field order,
    the old and the new value. *)
Definition get_changes_between_models (old_object new_object : ModelInstance)
    (exclude : list string) : list (string * Change) :=
  omap (fun field : string * string =>
          let '(name, new_value) := field in
          let old_value :=
            default "" (snd <$> List.find (fun f => bool_decide (fst f = name))
                                          (field_values old_object)) in
          if bool_decide (name ∈ exclude) then None
          else if bool_decide (old_value = new_value) then None
          else Some (name, (old_value, new_value)))
       (field_values new_object).

Definition model_layer : ModelLayer :=
  Build_ModelLayer approve reject set_as_pending get_object_for_this_type
                   get_moderator get_changes_between_models.

End Transitions.
End ModelsSpec.

(** ** The inherited change view, from Django *)

Module DjangoAdmin.
Section ChangeView.
Context `{ModerationConstants} `{AdminFramework}.

(** Django's [ModelAdmin.change_view] (django/contrib/admin/options.py)
    as [ModeratedObjectAdmin] inherits it, reduced to the steps that
    decide the response to a request without [_saveasnew]: the object is
    looked up in the admin's queryset, the change permission is checked,
    a missing object is a 404, a POST whose form is valid is saved and
    answered by [self.response_change], and anything else renders the
    change form. *)
Definition change_view (request : Request) (object_id : Z)
    (extra_context : ExtraContext) : ST World Response := fun w =>
  let obj :=
    head (List.filter (fun mo => bool_decide (pk mo = object_id))
            (ModeratedObjectAdmin.queryset (moderated_objects (fst w)))) in
  if negb (has_change_permission request obj) then Raises PermissionDenied w
  else
    match obj with
    | None => Raises Http404 w
    | Some obj =>
        let form :=
          if bool_decide (method request = "POST")
          then admin_form_clean request obj else None in
        match form with
        | Some cleaned_data =>
            let new_object :=
              ModelsSpec.moderate obj (moderation_status obj)
                (moderated_by obj) (moderation_date obj)
                (cleaned_data !! "moderation_reason") in
            Returns (ModeratedObjectAdmin.response_change request new_object)
                    (ModelsSpec.save new_object (fst w), snd w)
        | None =>
            Returns (TemplateResponse "moderation/moderate_object.html"
                                      extra_context) w
        end
    end.

Definition inherited_admin : InheritedAdmin :=
  Build_InheritedAdmin change_view.

End ChangeView.
End DjangoAdmin.

(** ** A small site, for the examples *)

Module Site.

(** The values the constants have in moderation/models.py upstream. *)
Definition constants : ModerationConstants :=
  {| MODERATION_STATUS_PENDING := 2;
     MODERATION_STATUS_REJECTED := 0;
     MODERATION_STATUS_APPROVED := 1;
     MODERATION_DRAFT_STATE := 1 |}.

Definition entry_live : ModelInstance :=
  {| model_class := "blog.Entry"; instance_pk := 1;
     field_values := [("title", "A"); ("body", "x")] |}.

Definition entry_changed : ModelInstance :=
  {| model_class := "blog.Entry"; instance_pk := 1;
     field_values := [("title", "B"); ("body", "x")] |}.

Definition page_live : ModelInstance :=
  {| model_class := "blog.Page"; instance_pk := 5;
     field_values := [("slug", "about")] |}.

Definition moderated_entry : ModeratedObject :=
  {| pk := 7; content_type := "blog.Entry"; object_pk := 1;
     changed_object := entry_changed;
     moderation_status := 2; moderation_state := 0;
     moderation_reason := None; moderated_by := None;
     moderation_date := None; date_created := 100 |}.

Definition moderated_other : ModeratedObject :=
  {| pk := 8; content_type := "blog.Entry"; object_pk := 2;
     changed_object :=
       {| model_class := "blog.Entry"; instance_pk := 2;
          field_values := [("title", "C"); ("body", "y")] |};
     moderation_status := 0; moderation_state := 0;
     moderation_reason := Some "spam"; moderated_by := Some "alice";
     moderation_date := Some 150; date_created := 120 |}.

Definition database : Database :=
  {| moderated_objects := [moderated_entry; moderated_other];
     model_objects := [entry_live; page_live];
     now := 200 |}.

Definition state : State :=
  {| db := database; request_messages := []; trace := [] |}.

Definition registry (visible : bool) : gmap string Moderator :=
  {[ "blog.Entry" := {| visible_until_rejected := visible;
                        fields_exclude := ["updated"] |} ]}.

Definition confirmation_message (self : ModeratedObject) : option string :=
  Some ("Moderated: " +:+ py_str (moderation_reason self)).

Definition model_layer (visible : bool) : ModelLayer :=
  @ModelsSpec.model_layer constants confirmation_message (registry visible).

(** Only the user [moderator] has the change permission; the form is
    the one field of the moderation fieldset and is always valid. *)
Definition framework : AdminFramework :=
  {| has_change_permission := fun request _ =>
       bool_decide (user request = "moderator");
     admin_form_clean := fun request _ =>
       Some {[ "moderation_reason" :=
                 default "" (POST request !! "moderation_reason") ]};
     get_for_model := fun _ => ("blog", "entry");
     reverse := fun _ _ => None;
     get_version := "1.3.1" |}.

Definition inherited : InheritedAdmin :=
  @DjangoAdmin.inherited_admin constants framework.

Definition post (who : User) (button reason : string) : Request :=
  {| user := who; method := "POST";
     POST := {[ button := "1"; "moderation_reason" := reason ]} |}.

Definition get (who : User) : Request :=
  {| user := who; method := "GET"; POST := ∅ |}.

(** A transition that fails on the object with primary key 8. *)
Definition approve_unless_8 (self : ModeratedObject) (actor : User)
    (reason : option string) : ST Database (option string) :=
  if bool_decide (pk self = 8) then raise ValidationError
  else @ModelsSpec.approve constants confirmation_message self actor reason.

Definition failing_layer : ModelLayer :=
  Build_ModelLayer approve_unless_8
    (@ModelsSpec.reject constants confirmation_message)
    (@ModelsSpec.set_as_pending constants confirmation_message)
    ModelsSpec.get_object_for_this_type
    (ModelsSpec.get_moderator (registry false))
    ModelsSpec.get_changes_between_models.

End Site.

(** ** How a bulk action behaves on a queryset *)

(** The per-object method [t] applied to the objects of a queryset, one
    after the other, each on the database the one before it left: the
    values returned by the objects that were processed, and the database
    reached, with the exception of the object that failed if one did. *)
Fixpoint run_transitions
    (t : ModeratedObject -> ST Database (option string))
    (queryset : list ModeratedObject) (d : Database)
  : list (option string) * outcome Database unit :=
  match queryset with
  | [] => ([], Returns tt d)
  | obj :: rest =>
      match t obj d with
      | Returns text d' =>
          let '(texts, o) := run_transitions t rest d' in (text :: texts, o)
      | Raises e d' => ([], Raises e d')
      end
  end.

(** [batch_outcome t call with_message run queryset st] describes a run of
    the bulk action [run] whose per-object method is [t] and whose calls
    are noted as [call]. When it returns, the database it leaves is the
    one reached by applying [t] to every object of the queryset in its
    order, the calls made are exactly one per object, in that order, and
    the messages added are the values the objects' methods returned, one
    per object (none when [with_message] is false). When it raises, the
    objects before the failing one have had [t] applied in order, the
    failing method started from the database they left, the database
    kept is the one the failing method left, and the messages added are
    those of the objects before it. *)
Definition batch_outcome
    (t : ModeratedObject -> ST Database (option string))
    (call : ModeratedObject -> Call) (with_message : bool)
    (run : list ModeratedObject -> M unit)
    (queryset : list ModeratedObject) (st : State) : Prop :=
  match run queryset st with
  | Returns _ st' =>
      exists texts,
        run_transitions t queryset (db st) = (texts, Returns tt (db st'))
        /\ length texts = length queryset
        /\ trace st' = trace st ++ map call queryset
        /\ request_messages st'
           = request_messages st
             ++ (if with_message then map (pair INFO) texts else [])
  | Raises e st' =>
      exists processed obj rest texts d_mid,
        queryset = processed ++ obj :: rest
        /\ run_transitions t processed (db st) = (texts, Returns tt d_mid)
        /\ length texts = length processed
        /\ t obj d_mid = Raises e (db st')
        /\ trace st' = trace st ++ map call (processed ++ [obj])
        /\ request_messages st'
           = request_messages st
             ++ (if with_message then map (pair INFO) texts else [])
  end.

(** One turn of the loop of a bulk action, written out on the state. *)
Definition bulk_step
    (t : ModeratedObject -> ST Database (option string))
    (call : ModeratedObject -> Call) (with_message : bool)
    (obj : ModeratedObject) : M unit := fun st =>
  match t obj (db st) with
  | Returns text d =>
      Returns tt
        {| db := d;
           request_messages :=
             request_messages st
             ++ (if with_message then [(INFO, text)] else []);
           trace := trace st ++ [call obj] |}
  | Raises e d =>
      Raises e
        {| db := d;
           request_messages := request_messages st;
           trace := trace st ++ [call obj] |}
  end.

(** ** Words for the statements about the change view *)

Definition is_method_call (c : Call) : Prop :=
  match c with
  | MethodCall _ _ _ _ => True
  | DiffCall _ _ _ => False
  end.


(** ** admin.py: the rest of class ModerationAdmin *)

(** [str(n)] for an integer. *)
Definition py_str_int (n : Z) : string :=
  DecimalString.NilZero.string_of_int (Z.to_int n).

(** [d.update(other)]: the entries of [other] replace those of [d]. *)
Definition py_update {A} (other d : gmap string A) : gmap string A :=
  other ∪ d.

Module ModerationAdminViews.

(** A form class made by [get_moderated_object_form]: its name, its base
    class and the model of its [Meta]. *)
Record FormClass := {
  form_name : string;
  form_base : string;
  meta_model : string
}.

(** A keyword argument of [get_form]: a form class or some other value. *)
Inductive KwArg :=
| FormArg (form : FormClass)
| ValueArg (value : string).

Definition get_moderated_object_form (model_class : string) : FormClass :=
  {| form_name := "ModeratedObjectForm";
     form_base := "BaseModeratedObjectForm";
     meta_model := model_class |}.

Section Views.
Context `{ModerationConstants} `{ModelLayer}.

(** The class attribute, which a subclass may set to [False]. *)
Variable admin_integration_enabled : bool.

(** The [defaults] dict handed to the inherited [get_form]. An object that
    is given is true. *)
Definition get_form_defaults (obj : option ModelInstance)
    (kwargs : gmap string KwArg) : gmap string KwArg :=
  let defaults : gmap string KwArg := ∅ in
  let defaults :=
    match obj with
    | Some obj =>
        if admin_integration_enabled then
          let form := get_moderated_object_form (model_class obj) in
          py_update {[ "form" := FormArg form ]} defaults
        else defaults
    | None => defaults
    end in
  py_update kwargs defaults.

(** [super_get_form] is the inherited [get_form]. *)
Definition get_form {F} (super_get_form : Request -> option ModelInstance ->
                                          gmap string KwArg -> F)
    (request : Request) (obj : option ModelInstance)
    (kwargs : gmap string KwArg) : F :=
  super_get_form request obj (get_form_defaults obj kwargs).

(** [super_change_view] is the inherited [change_view], [model] is
    [self.model]. *)
Definition change_view {C} (super_change_view : Request -> Z -> C ->
                                                ST World Response)
    (model : string) (request : Request) (object_id : Z) (extra_context : C)
  : M Response :=
  (if admin_integration_enabled
   then ModerationAdmin.send_message model request object_id
   else mret tt) ;;
  lift_world (super_change_view request object_id extra_context).

End Views.
End ModerationAdminViews.

(** ** admin.py: class RestrictedStatusFilterSpec *)

Module RestrictedStatusFilter.

(** What [__init__] sets on the filter. *)
Record FilterSpecObject := {
  lookup_kwarg : string;
  lookup_val : option string;
  lookup_choices : list (string * Z)
}.

(** One dict yielded by [choices]. *)
Record Choice := {
  selected : bool;
  query_string : string;
  display : string
}.

Section Spec.
Context `{ModerationConstants}.

(** [GET] is [request.GET]. *)
Definition init (GET : gmap string string) : FilterSpecObject :=
  let lookup_kwarg := "moderation_status__exact" in
  {| lookup_kwarg := lookup_kwarg;
     lookup_val := GET !! lookup_kwarg;
     lookup_choices :=
       [(ugettext_lazy "Pending", MODERATION_STATUS_PENDING);
        (ugettext_lazy "Rejected", MODERATION_STATUS_REJECTED)] |}.

(** [get_query_string] is [cl.get_query_string(new_params, remove)]; the
    choices are listed in the order they are yielded. *)
Definition choices (get_query_string : gmap string Z -> list string -> string)
    (self : FilterSpecObject) : list Choice :=
  {| selected := bool_decide (lookup_val self = None);
     query_string := get_query_string ∅ [lookup_kwarg self];
     display := ugettext_lazy "All" |}
  :: map (fun val : string * Z =>
            {| selected :=
                 bool_decide (Some (py_str_int (snd val)) = lookup_val self);
               query_string :=
                 get_query_string {[ lookup_kwarg self := snd val ]} [];
               display := fst val |})
         (lookup_choices self).

Definition title : string := ugettext_lazy "moderation status".

End Spec.
End RestrictedStatusFilter.

(** ** More of the example site *)

Module Cases.

(** The site with no policy registered. *)
Definition unregistered_layer : ModelLayer :=
  @ModelsSpec.model_layer Site.constants Site.confirmation_message ∅.

(** A site whose moderation form has no field. *)
Definition bare_framework : AdminFramework :=
  {| has_change_permission := fun _ _ => true;
     admin_form_clean := fun _ _ => Some ∅;
     get_for_model := fun _ => ("blog", "entry");
     reverse := fun _ _ => None;
     get_version := "1.10.2" |}.

Definition bare_inherited : InheritedAdmin :=
  @DjangoAdmin.inherited_admin Site.constants bare_framework.

(** An inherited change view that renders nothing and redirects. *)
Definition plain_view (request : Request) (object_id : Z) (extra_context : unit)
  : ST World Response := fun w => Returns (HttpResponseRedirect "../") w.

End Cases.


(** * Properties *)

(** ** Text *)

Lemma append_empty_r (s : string) : s +:+ "" = s.
Proof.
  induction s as [|c s IH]; [reflexivity|].
  change (String c (s +:+ "") = String c s). by rewrite IH.
Qed.

Lemma occurs_in_suffix (prefix s : string) : occurs_in s (prefix +:+ s).
Proof. exists prefix, "". by rewrite append_empty_r. Qed.

(** ** ModerationAdmin.get_moderation_message *)

Section MessageProperties.
Context `{ModerationConstants}.
Import ModerationAdmin.

Lemma rejected_text (reason : option string) :
  percent_format
    (ugettext_lazy "Object has been rejected by moderator, reason: %s")
    [py_str reason]
  = "Object has been rejected by moderator, reason: " +:+ py_str reason.
Proof.
  change (percent_format _ _)
    with ("Object has been rejected by moderator, reason: "
          +:+ (py_str reason +:+ "")).
  by rewrite append_empty_r.
Qed.

(** C1. With the three status constants distinct, the message is: for
    Pending and a true flag the viewable-on-site text; for Pending and
    a false flag the not-viewable text; for Rejected the rejection text
    ending in the given reason; for Approved the approved-and-visible
    text; for no status the not-registered text. *)
Theorem get_moderation_message_cases
    (reason : option string) (visible : bool) :
  MODERATION_STATUS_REJECTED <> MODERATION_STATUS_PENDING ->
  MODERATION_STATUS_APPROVED <> MODERATION_STATUS_PENDING ->
  MODERATION_STATUS_APPROVED <> MODERATION_STATUS_REJECTED ->
  get_moderation_message (Some MODERATION_STATUS_PENDING) reason true
  = Some "Object is viewable on site, it will be removed if moderator rejects it"
  /\ get_moderation_message (Some MODERATION_STATUS_PENDING) reason false
     = Some "Object is not viewable on site, it will be visible if moderator accepts it"
  /\ get_moderation_message (Some MODERATION_STATUS_REJECTED) reason visible
     = Some ("Object has been rejected by moderator, reason: "
             +:+ py_str reason)
  /\ occurs_in (py_str reason)
       ("Object has been rejected by moderator, reason: " +:+ py_str reason)
  /\ get_moderation_message (Some MODERATION_STATUS_APPROVED) reason visible
     = Some "Object has been approved by moderator and is visible on site"
  /\ get_moderation_message None reason visible
     = Some "This object is not registered with the moderation system.".
Proof.
  intros Hrp Hap Har. unfold get_moderation_message.
  repeat apply conj.
  - by rewrite decide_True.
  - by rewrite decide_True.
  - rewrite decide_False by congruence. rewrite decide_True by done.
    by rewrite rejected_text.
  - apply occurs_in_suffix.
  - rewrite !decide_False by congruence. by rewrite decide_True.
  - rewrite !decide_False by congruence. by rewrite decide_True.
Qed.

(** C10. A status that is an integer other than the three constants gets
    no message: the function returns [None]; and [None] is returned for
    such a status only. *)
Theorem get_moderation_message_unknown_status
    (status : Z) (reason : option string) (visible : bool) :
  status <> MODERATION_STATUS_PENDING ->
  status <> MODERATION_STATUS_REJECTED ->
  status <> MODERATION_STATUS_APPROVED ->
  get_moderation_message (Some status) reason visible = None
  /\ forall other reason' visible',
       get_moderation_message other reason' visible' = None ->
       exists z, other = Some z
                 /\ z <> MODERATION_STATUS_PENDING
                 /\ z <> MODERATION_STATUS_REJECTED
                 /\ z <> MODERATION_STATUS_APPROVED.
Proof.
  intros Hp Hr Ha. split.
  - unfold get_moderation_message.
    rewrite !decide_False by congruence. done.
  - intros other reason' visible'. unfold get_moderation_message.
    repeat case_decide; try (destruct visible'; discriminate).
    intros _. destruct other as [z|]; [|done].
    exists z. repeat apply conj; congruence.
Qed.

End MessageProperties.

(** ** ModeratedObjectAdmin: queryset and actions *)

Section ListingProperties.
Context `{ModerationConstants}.
Import ModeratedObjectAdmin.

Lemma exclude_In {A} (column : A -> Z) (value : Z) (qs : list A) (row : A) :
  In row (exclude column value qs) <-> In row qs /\ column row <> value.
Proof.
  unfold exclude. rewrite filter_In.
  rewrite negb_true_iff, bool_decide_eq_false. reflexivity.
Qed.

(** C2. Whatever the inherited queryset, a row is in the admin's
    queryset exactly when it is in the inherited one, its status is not
    Approved and its state is not Draft; so no row of the result is
    Approved and none is Draft. *)
Theorem queryset_excludes_approved_and_draft (base : list ModeratedObject) :
  Forall (fun mo => moderation_status mo <> MODERATION_STATUS_APPROVED
                    /\ moderation_state mo <> MODERATION_DRAFT_STATE)
         (queryset base)
  /\ forall mo,
       In mo (queryset base)
       <-> In mo base
           /\ moderation_status mo <> MODERATION_STATUS_APPROVED
           /\ moderation_state mo <> MODERATION_DRAFT_STATE.
Proof.
  assert (Hin : forall mo,
             In mo (queryset base)
             <-> In mo base
                 /\ moderation_status mo <> MODERATION_STATUS_APPROVED
                 /\ moderation_state mo <> MODERATION_DRAFT_STATE).
  { intros mo. unfold queryset. rewrite !exclude_In. tauto. }
  split; [|exact Hin].
  apply List.Forall_forall. intros mo Hmo. apply Hin in Hmo. tauto.
Qed.

(** C7. Whatever action table the inherited [get_actions] builds, with
    or without [delete_selected], the table returned is that table with
    the key [delete_selected] removed: the key is absent from it and no
    exception escapes. *)
Theorem get_actions_without_delete_selected
    {A} (inherited : gmap string A) :
  get_actions inherited
  = Returns (delete "delete_selected" inherited)
            (delete "delete_selected" inherited)
  /\ delete "delete_selected" inherited !! "delete_selected" = None.
Proof.
  split; [|apply lookup_delete_eq].
  unfold get_actions, mbind, ST_bind, try_except, py_delitem, get_state.
  destruct (inherited !! "delete_selected") as [a|] eqn:Hlookup; cbn.
  - reflexivity.
  - by rewrite delete_id.
Qed.

End ListingProperties.

(** ** The filter registry *)

(** C8. Loading the module puts one entry, the restricted-status test
    with [RestrictedStatusFilterSpec], at index 0 of the registry; the
    registry grows by that one entry, every earlier entry keeps its
    order one place further, and the test accepts a field exactly when
    its [restricted_status_filter] attribute is true. *)
Theorem register_filter_spec_at_head (filter_specs : list FilterSpecEntry) :
  register_filter_spec filter_specs !! 0%nat
  = Some (restricted_status_test, RestrictedStatusFilterSpec)
  /\ length (register_filter_spec filter_specs) = S (length filter_specs)
  /\ length (restricted_entries (register_filter_spec filter_specs))
     = S (length (restricted_entries filter_specs))
  /\ drop 1 (register_filter_spec filter_specs) = filter_specs
  /\ (forall i : nat,
        register_filter_spec filter_specs !! S i = filter_specs !! i)
  /\ (forall f,
        restricted_status_test f
        = bool_decide (restricted_status_filter f = Some true)).
Proof.
  unfold register_filter_spec, py_list_insert. rewrite take_0, drop_0. cbn.
  repeat split.
  intros [name [[|]|]]; reflexivity.
Qed.

(** ** The loop *)

Lemma for_each_ext {S A} (body body' : A -> ST S unit) (xs : list A) :
  (forall x s, body x s = body' x s) ->
  forall s, for_each xs body s = for_each xs body' s.
Proof.
  intros Hbody. induction xs as [|x xs IH]; intros s; [reflexivity|].
  cbn. unfold mbind, ST_bind. rewrite Hbody.
  destruct (body' x s); [apply IH | reflexivity].
Qed.

Lemma for_each_cons_returns {S A} (body : A -> ST S unit) x xs s s' :
  body x s = Returns tt s' ->
  for_each (x :: xs) body s = for_each xs body s'.
Proof. intros Hx. cbn. unfold mbind, ST_bind. by rewrite Hx. Qed.

Lemma for_each_cons_raises {S A} (body : A -> ST S unit) x xs s e s' :
  body x s = Raises e s' ->
  for_each (x :: xs) body s = Raises e s'.
Proof. intros Hx. cbn. unfold mbind, ST_bind. by rewrite Hx. Qed.

Section BatchProperties.
Variable t : ModeratedObject -> ST Database (option string).
Variable call : ModeratedObject -> Call.
Variable with_message : bool.

Lemma for_each_bulk_step (queryset : list ModeratedObject) (st : State) :
  batch_outcome t call with_message
    (fun qs => for_each qs (bulk_step t call with_message)) queryset st.
Proof.
  unfold batch_outcome.
  revert st. induction queryset as [|x qs IH]; intros st.
  - cbn. exists []. repeat apply conj; try done.
    + by rewrite app_nil_r.
    + destruct with_message; by rewrite app_nil_r.
  - destruct (bulk_step t call with_message x st) as [[] s1|e s1] eqn:Hx.
    + rewrite (for_each_cons_returns _ _ _ _ _ Hx).
      specialize (IH s1).
      unfold bulk_step in Hx.
      destruct (t x (db st)) as [text d|e d] eqn:Ht; [|discriminate].
      injection Hx as <-.
      destruct (for_each qs (bulk_step t call with_message) _)
        as [[] st'|e st'] eqn:Hrun.
      * destruct IH as (texts & Hdb & Hlen & Htrace & Hmsgs).
        cbn in Hdb, Htrace, Hmsgs.
        exists (text :: texts). repeat apply conj.
        -- cbn. by rewrite Ht, Hdb.
        -- cbn. by rewrite Hlen.
        -- by rewrite Htrace, <- app_assoc.
        -- rewrite Hmsgs, <- app_assoc. by destruct with_message.
      * destruct IH as (processed & obj & rest & texts & d_mid
                        & -> & Hdb & Hlen & Hfail & Htrace & Hmsgs).
        cbn in Hdb, Htrace, Hmsgs.
        exists (x :: processed), obj, rest, (text :: texts), d_mid.
        repeat apply conj; try done.
        -- cbn. by rewrite Ht, Hdb.
        -- cbn. by rewrite Hlen.
        -- rewrite Htrace. cbn. by rewrite <- app_assoc.
        -- rewrite Hmsgs, <- app_assoc. by destruct with_message.
    + rewrite (for_each_cons_raises _ _ _ _ _ _ Hx).
      unfold bulk_step in Hx.
      destruct (t x (db st)) as [text d|e' d] eqn:Ht; [discriminate|].
      injection Hx as <- <-.
      exists [], x, qs, [], (db st). repeat apply conj; try done.
      cbn. destruct with_message; by rewrite app_nil_r.
Qed.

End BatchProperties.

Lemma batch_outcome_ext t call with_message run run' queryset st :
  (forall qs s, run qs s = run' qs s) ->
  batch_outcome t call with_message run queryset st ->
  batch_outcome t call with_message run' queryset st.
Proof. intros Hrun. unfold batch_outcome. by rewrite <- Hrun. Qed.

(** ** The bulk actions *)

Section BulkActionProperties.
Context `{ModelLayer}.

Lemma call_method_step (name : Method) (with_message : bool)
    (request : Request) (obj : ModeratedObject) (st : State) :
  (text ← call_method name obj (user request) None;
   if with_message then add_message request INFO text else mret tt) st
  = bulk_step
      (fun self => match name with
                   | Approve => approve self (user request) None
                   | Reject => reject self (user request) None
                   | SetAsPending => set_as_pending self (user request)
                   end)
      (fun self => MethodCall name self (user request) None)
      with_message obj st.
Proof.
  unfold bulk_step, call_method, mbind, ST_bind, log, lift_db, add_message,
    mret, ST_ret, set_db.
  cbn.
  destruct name; cbn;
    match goal with
    | |- context [?f obj (user request) None (db st)] =>
        destruct (f obj (user request) None (db st))
    | |- context [?f obj (user request) (db st)] =>
        destruct (f obj (user request) (db st))
    end; destruct with_message; cbn; by rewrite ?app_nil_r.
Qed.

(** C5. Each bulk action runs its method once per object of the
    queryset, in the queryset's order. When the action returns, the
    calls made are exactly those, the database is the one reached by
    applying the method to every object in order, and [approve_objects]
    and [reject_objects] have added one message per object, the value
    its method returned ([set_objects_as_pending] none). When a method
    raises, the action raises with it: the objects before it have had
    their method applied in order, the failing method started from the
    database they left, and the database kept is the one it left;
    nothing is rolled back, and the messages of the objects before it
    stay. *)
Theorem bulk_actions_once_per_entity
    (request : Request) (queryset : list ModeratedObject) (st : State) :
  batch_outcome (fun obj => approve obj (user request) None)
                (fun obj => MethodCall Approve obj (user request) None)
                true (approve_objects request) queryset st
  /\ batch_outcome (fun obj => reject obj (user request) None)
                   (fun obj => MethodCall Reject obj (user request) None)
                   true (reject_objects request) queryset st
  /\ batch_outcome (fun obj => set_as_pending obj (user request))
                   (fun obj => MethodCall SetAsPending obj (user request) None)
                   false (set_objects_as_pending request) queryset st.
Proof.
  repeat apply conj.
  - eapply batch_outcome_ext; [|apply for_each_bulk_step].
    intros qs s. unfold approve_objects. symmetry. apply for_each_ext.
    intros obj s'. apply (call_method_step Approve true).
  - eapply batch_outcome_ext; [|apply for_each_bulk_step].
    intros qs s. unfold reject_objects. symmetry. apply for_each_ext.
    intros obj s'. apply (call_method_step Reject true).
  - eapply batch_outcome_ext; [|apply for_each_bulk_step].
    intros qs s. unfold set_objects_as_pending. symmetry.
    apply for_each_ext.
    intros obj s'. rewrite <- (call_method_step SetAsPending false).
    reflexivity.
Qed.

End BulkActionProperties.

(** ** reject, as the specification has it *)

Section RejectProperties.
Context `{ModerationConstants}.
Variable confirmation_message : ModeratedObject -> option string.
Variable registry : gmap string Moderator.

Lemma save_In (self : ModeratedObject) (d : Database) :
  In self (moderated_objects (ModelsSpec.save self d)).
Proof.
  unfold ModelsSpec.save. cbn.
  destruct (existsb _ (moderated_objects d)) eqn:Hany.
  - apply existsb_exists in Hany as (row & Hrow & Hpk).
    apply in_map_iff. exists row. by rewrite Hpk.
  - apply in_or_app. right. by left.
Qed.

(** C3. With [reject] as the specification describes it: rejecting with
    the empty reason raises [ValidationError] and writes nothing;
    rejecting with the reason [spam] returns, and the saved row is
    Rejected, by that actor, with reason [spam]; and the bulk action
    [reject_objects], whose calls pass no reason, raises
    [ValidationError] at its first object, having made that one call
    and added no message. *)
Theorem reject_requires_reason
    (self : ModeratedObject) (actor : User) (d : Database)
    (request : Request) (rest : list ModeratedObject) (st : State) :
  ModelsSpec.reject confirmation_message self actor (Some "") d
  = Raises ValidationError d
  /\ (let rejected :=
        ModelsSpec.moderate self MODERATION_STATUS_REJECTED (Some actor)
                            (Some (now d)) (Some "spam") in
      ModelsSpec.reject confirmation_message self actor (Some "spam") d
      = Returns (confirmation_message rejected) (ModelsSpec.save rejected d)
      /\ In rejected (moderated_objects (ModelsSpec.save rejected d))
      /\ moderation_reason rejected = Some "spam")
  /\ @reject_objects (ModelsSpec.model_layer confirmation_message registry)
       request (self :: rest) st
     = Raises ValidationError
         {| db := db st;
            request_messages := request_messages st;
            trace := trace st
                     ++ [MethodCall Reject self (user request) None] |}.
Proof.
  repeat apply conj.
  - reflexivity.
  - reflexivity.
  - apply save_In.
  - reflexivity.
  - unfold reject_objects.
    apply for_each_cons_raises.
    by destruct st.
Qed.

End RejectProperties.

(** ** ModerationAdmin.send_message *)

Section SendMessageProperties.
Context `{ModerationConstants} `{ModelLayer}.
Import ModerationAdmin.

Lemma manager_get_none {S A} (model : string) (lookup : A -> bool)
    (rows : list A) (s : S) :
  Forall (fun row => lookup row = false) rows ->
  manager_get model lookup rows s = Raises (DoesNotExist model) s.
Proof.
  intros Hnone. unfold manager_get.
  replace (List.filter lookup rows) with (@nil A); [reflexivity|].
  symmetry. induction Hnone as [|row rows Hrow _ IH]; [reflexivity|].
  cbn. by rewrite Hrow.
Qed.

(** C4, as the code has it. When the admin's model has the object with
    this id and no [ModeratedObject] row refers to it, [send_message]
    returns normally: the [DoesNotExist] of the lookup is caught, and
    the one message given to the user is that of
    [get_moderation_message] called with no argument, the
    not-registered text. Nothing else changes. *)
Theorem send_message_not_registered
    (model : string) (request : Request) (object_id : Z) (st : State)
    (obj : ModelInstance) :
  unmoderated_objects_get model object_id (db st) = Returns obj (db st) ->
  Forall (fun mo => ~ (content_type mo = model_class obj
                       /\ object_pk mo = instance_pk obj))
         (moderated_objects (db st)) ->
  send_message model request object_id st
  = Returns tt
      {| db := db st;
         request_messages :=
           request_messages st
           ++ [(INFO, get_moderation_message None None false)];
         trace := trace st |}
  /\ get_moderation_message None None false
     = Some "This object is not registered with the moderation system.".
Proof.
  intros Hobj Hnone. split; [|reflexivity].
  assert (Hget : get_for_instance obj (db st)
                 = Raises (DoesNotExist ModeratedObject_model) (db st)).
  { unfold get_for_instance. apply manager_get_none.
    eapply Forall_impl; [exact Hnone|].
    intros mo Hmo. by apply bool_decide_eq_false. }
  unfold send_message, message_user, add_message, try_except, mbind,
    ST_bind, lift_db.
  rewrite Hobj. cbn. rewrite Hget. cbn.
  rewrite decide_True by reflexivity. by destruct st.
Qed.

(** When the admin's model has no object with this id, the lookup's own
    [DoesNotExist] is not the one the handler names, and it escapes. *)
Lemma send_message_missing_object
    (model : string) (request : Request) (object_id : Z) (st : State) :
  model <> ModeratedObject_model ->
  unmoderated_objects_get model object_id (db st)
  = Raises (DoesNotExist model) (db st) ->
  send_message model request object_id st = Raises (DoesNotExist model) st.
Proof.
  intros Hmodel Hobj.
  unfold send_message, try_except, mbind, ST_bind, lift_db.
  rewrite Hobj. cbn. rewrite decide_False by congruence. by destruct st.
Qed.

End SendMessageProperties.

(** ** ModeratedObjectAdmin.change_view *)

Section ChangeViewProperties.
Context `{ModelLayer} `{AdminFramework} `{InheritedAdmin}.
Import ModeratedObjectAdmin.

Lemma lift_world_trace {A} (c : ST World A) (st : State) :
  trace (final_state (lift_world c st)) = trace st.
Proof.
  unfold lift_world. by destruct (c (db st, request_messages st)).
Qed.

Lemma call_method_outcome (name : Method) (self : ModeratedObject)
    (moderated_by : User) (reason : option string) (st : State) :
  call_method name self moderated_by reason st
  = let t := match name with
             | Approve => approve self moderated_by reason
             | Reject => reject self moderated_by reason
             | SetAsPending => set_as_pending self moderated_by
             end in
    let noted := trace st ++ [MethodCall name self moderated_by reason] in
    match t (db st) with
    | Returns text d =>
        Returns text {| db := d; request_messages := request_messages st;
                        trace := noted |}
    | Raises e d =>
        Raises e {| db := d; request_messages := request_messages st;
                    trace := noted |}
    end.
Proof.
  unfold call_method, mbind, ST_bind, log, lift_db, set_db. cbn.
  by destruct name.
Qed.


(** The view once its three lookups have succeeded. *)
Lemma change_view_after_lookups
    (request : Request) (object_id : Z) (st : State)
    (mo : ModeratedObject) (moderator : Moderator) (live : ModelInstance)
    (d1 d2 : Database) :
  objects_get object_id (db st) = Returns mo (db st) ->
  get_moderator (model_class (changed_object mo)) (db st)
  = Returns moderator d1 ->
  get_object_for_this_type mo d1 = Returns live d2 ->
  change_view request object_id st
  = let old_object :=
      if visible_until_rejected moderator then changed_object mo else live in
    let new_object :=
      if visible_until_rejected moderator then live else changed_object mo in
    let changes :=
      map snd (get_changes_between_models old_object new_object
                                          (fields_exclude moderator)) in
    match change_view_post request mo new_object
            {| db := d2; request_messages := request_messages st;
               trace := trace st
                        ++ [DiffCall old_object new_object
                                     (fields_exclude moderator)] |} with
    | Returns (Some response) st' => Returns response st'
    | Returns None st' =>
        lift_world
          (ModelAdmin_change_view request object_id
             (build_extra_context (changed_object mo) old_object new_object
                                  changes)) st'
    | Raises e st' => Raises e st'
    end.
Proof.
  intros Hmo Hmoderator Hlive.
  unfold change_view, call_get_changes, log, mbind, ST_bind, lift_db.
  rewrite Hmo. cbn. rewrite Hmoderator. cbn.
  destruct (visible_until_rejected moderator); cbn; rewrite Hlive; cbn;
    match goal with
    | |- context [change_view_post ?r ?m ?n ?s] =>
        destruct (change_view_post r m n s) as [[response|] st'|e st']
    end; reflexivity.
Qed.


(** The two actions of the POST block, whatever the inherited view is.
    For a POST whose form is valid, once the three lookups have
    succeeded: if it names [approve] and [approve] returns, the view
    adds the returned message and itself answers with the redirect of
    [response_change]; if it names [reject] and not [approve], and
    [reject] returns, the view adds the returned message and hands the
    request to the inherited change view, run on the state the
    rejection left. *)
Lemma change_view_action_step
    (request : Request) (object_id : Z) (st : State)
    (mo : ModeratedObject) (moderator : Moderator) (live : ModelInstance)
    (d1 d2 d3 : Database)
    (cleaned_data : gmap string string) (reason : string)
    (text : option string) :
  objects_get object_id (db st) = Returns mo (db st) ->
  get_moderator (model_class (changed_object mo)) (db st)
  = Returns moderator d1 ->
  get_object_for_this_type mo d1 = Returns live d2 ->
  POST request <> ∅ ->
  admin_form_clean request mo = Some cleaned_data ->
  cleaned_data !! "moderation_reason" = Some reason ->
  let old_object :=
    if visible_until_rejected moderator then changed_object mo else live in
  let new_object :=
    if visible_until_rejected moderator then live else changed_object mo in
  let diff := DiffCall old_object new_object (fields_exclude moderator) in
  let after name :=
    {| db := d3;
       request_messages := request_messages st ++ [(INFO, text)];
       trace := (trace st ++ [diff])
                ++ [MethodCall name mo (user request) (Some reason)] |} in
  (is_Some (POST request !! "approve") ->
   approve mo (user request) (Some reason) d2 = Returns text d3 ->
   change_view request object_id st
   = Returns (HttpResponseRedirect
                (if has_change_permission request None
                 then "../" else "../../../"))
             (after Approve))
  /\ (POST request !! "approve" = None ->
      is_Some (POST request !! "reject") ->
      reject mo (user request) (Some reason) d2 = Returns text d3 ->
      change_view request object_id st
      = lift_world
          (ModelAdmin_change_view request object_id
             (build_extra_context (changed_object mo) old_object new_object
                (map snd (get_changes_between_models
                            old_object new_object
                            (fields_exclude moderator)))))
          (after Reject)).
Proof.
  intros Hmo Hmoderator Hlive Hpost Hform Hreason old_object new_object
    diff after.
  rewrite (change_view_after_lookups _ _ _ _ _ _ _ _ Hmo Hmoderator Hlive).
  cbv zeta. fold old_object new_object diff.
  unfold change_view_post.
  rewrite bool_decide_eq_true_2 by exact Hpost.
  rewrite Hform. unfold mbind, ST_bind, py_getitem. rewrite Hreason. cbn.
  split.
  - intros Happrove Hreturns.
    rewrite bool_decide_eq_true_2 by exact Happrove.
    rewrite call_method_outcome. cbn. rewrite Hreturns. cbn.
    unfold response_change.
    by destruct (has_change_permission request None).
  - intros Hnot Hreject Hreturns.
    rewrite bool_decide_eq_false_2 by (rewrite Hnot; by intros [? ?]).
    rewrite bool_decide_eq_true_2 by exact Hreject.
    rewrite call_method_outcome. cbn. rewrite Hreturns. cbn.
    reflexivity.
Qed.

End ChangeViewProperties.

(** * The properties on the example site *)

Lemma get_moderation_message_cases_witness :
  @ModerationAdmin.get_moderation_message Site.constants
    (Some 2) (Some "spam") true
  = Some "Object is viewable on site, it will be removed if moderator rejects it"
  /\ @ModerationAdmin.get_moderation_message Site.constants
       (Some 2) (Some "spam") false
     = Some "Object is not viewable on site, it will be visible if moderator accepts it"
  /\ @ModerationAdmin.get_moderation_message Site.constants
       (Some 0) (Some "spam") true
     = Some ("Object has been rejected by moderator, reason: " +:+ "spam")
  /\ occurs_in "spam"
       ("Object has been rejected by moderator, reason: " +:+ "spam")
  /\ @ModerationAdmin.get_moderation_message Site.constants
       (Some 1) (Some "spam") true
     = Some "Object has been approved by moderator and is visible on site"
  /\ @ModerationAdmin.get_moderation_message Site.constants
       None (Some "spam") true
     = Some "This object is not registered with the moderation system.".
Proof.
  apply (@get_moderation_message_cases Site.constants (Some "spam") true);
    cbn; lia.
Defined.

Lemma get_moderation_message_unknown_status_witness :
  @ModerationAdmin.get_moderation_message Site.constants
    (Some 5) (Some "spam") false = None.
Proof.
  apply (@get_moderation_message_unknown_status Site.constants
           5 (Some "spam") false); cbn; lia.
Defined.

Lemma send_message_not_registered_witness :
  @ModerationAdmin.send_message Site.constants (Site.model_layer false)
    "blog.Page" (Site.get "staff") 5 Site.state
  = Returns tt
      {| db := Site.database;
         request_messages :=
           [(INFO,
             Some "This object is not registered with the moderation system.")];
         trace := [] |}.
Proof.
  apply (@send_message_not_registered Site.constants (Site.model_layer false)
           "blog.Page" (Site.get "staff") 5 Site.state Site.page_live).
  - reflexivity.
  - repeat constructor; cbn; intros [Htype _]; discriminate.
Defined.

(** C4, as the claim has it, fails: for an id the admin's model has no
    object with, there is no [ModeratedObject] row either, and the
    [DoesNotExist] of the model escapes [send_message]; no message is
    given to the user. *)
Lemma send_message_missing_object_escapes :
  Forall (fun mo => ~ (content_type mo = "blog.Page" /\ object_pk mo = 6))
         (moderated_objects (db Site.state))
  /\ @ModerationAdmin.send_message Site.constants (Site.model_layer false)
       "blog.Page" (Site.get "staff") 6 Site.state
     = Raises (DoesNotExist "blog.Page") Site.state.
Proof.
  split.
  - repeat constructor; cbn; intros [Htype _]; discriminate.
  - reflexivity.
Qed.


Lemma change_view_action_step_example :
  @ModeratedObjectAdmin.change_view (Site.model_layer false) Site.framework
    Site.inherited (Site.post "staff" "approve" "") 7 Site.state
  = Returns (HttpResponseRedirect "../../../")
      {| db := ModelsSpec.save
                 (ModelsSpec.moderate Site.moderated_entry 1 (Some "staff")
                                      (Some 200) (Some ""))
                 Site.database;
         request_messages := [(INFO, Some "Moderated: ")];
         trace := [DiffCall Site.entry_live Site.entry_changed ["updated"];
                   MethodCall Approve Site.moderated_entry "staff" (Some "")] |}
  /\ exists st',
       @ModeratedObjectAdmin.change_view (Site.model_layer false)
         Site.framework Site.inherited (Site.post "moderator" "reject" "spam")
         7 Site.state
       = Returns (HttpResponseRedirect "../") st'.
Proof.
  split.
  - apply (@change_view_action_step (Site.model_layer false) Site.framework
             Site.inherited (Site.post "staff" "approve" "") 7 Site.state
             Site.moderated_entry
             {| visible_until_rejected := false;
                fields_exclude := ["updated"] |}
             Site.entry_live Site.database Site.database
             (ModelsSpec.save
                (ModelsSpec.moderate Site.moderated_entry 1 (Some "staff")
                                     (Some 200) (Some ""))
                Site.database)
             {[ "moderation_reason" := "" ]} "" (Some "Moderated: "));
      try reflexivity.
    + vm_compute. discriminate.
    + vm_compute. eauto.
  - rewrite (proj2 (@change_view_action_step (Site.model_layer false)
               Site.framework Site.inherited
               (Site.post "moderator" "reject" "spam") 7 Site.state
               Site.moderated_entry
               {| visible_until_rejected := false;
                  fields_exclude := ["updated"] |}
               Site.entry_live Site.database Site.database
               (ModelsSpec.save
                  (ModelsSpec.moderate Site.moderated_entry 0
                     (Some "moderator") (Some 200) (Some "spam"))
                  Site.database)
               {[ "moderation_reason" := "spam" ]} "spam"
               (Some "Moderated: spam")
               eq_refl eq_refl eq_refl
               ltac:(vm_compute; discriminate) eq_refl eq_refl)
               eq_refl ltac:(vm_compute; eauto) eq_refl).
    eexists. vm_compute. reflexivity.
Defined.


(** With the change permission the same request is redirected, by the
    inherited view. *)
Example change_view_reject_with_permission :
  exists st',
    @ModeratedObjectAdmin.change_view (Site.model_layer false) Site.framework
      Site.inherited (Site.post "moderator" "reject" "spam") 7 Site.state
    = Returns (HttpResponseRedirect "../") st'.
Proof. eexists. vm_compute. reflexivity. Qed.

(** A bulk approval whose second object fails: the first object stays
    approved and has its message, the second is untouched. *)
Example approve_objects_keeps_earlier_transitions :
  match @approve_objects Site.failing_layer (Site.get "moderator")
          [Site.moderated_entry; Site.moderated_other] Site.state with
  | Raises ValidationError st' =>
      map moderation_status (moderated_objects (db st')) = [1; 0]
      /\ request_messages st' = [(INFO, Some "Moderated: ")]
      /\ length (trace st') = 2%nat
  | _ => False
  end.
Proof. vm_compute. auto. Qed.

(** * Further properties of admin.py *)

(** ** ModerationAdmin: messages *)

Section MoreMessageProperties.
Context `{ModerationConstants} `{ModelLayer}.
Import ModerationAdmin.

(** Whatever the lookups do, [send_message] never lets
    [ModeratedObject.DoesNotExist] escape. When it returns it has given
    the user exactly one message; when it raises it has given none. It
    notes no call. *)
Theorem send_message_outcome
    (model : string) (request : Request) (object_id : Z) (st : State) :
  match send_message model request object_id st with
  | Returns _ st' =>
      trace st' = trace st
      /\ exists text,
           request_messages st' = request_messages st ++ [(INFO, text)]
  | Raises e st' =>
      e <> DoesNotExist ModeratedObject_model
      /\ request_messages st' = request_messages st
      /\ trace st' = trace st
  end.
Proof.
  unfold send_message, message_user, add_message, try_except, mbind, ST_bind,
    lift_db, set_db.
  destruct (unmoderated_objects_get model object_id (db st)) as [obj d|e d];
    cbn.
  - destruct (get_for_instance obj d) as [mo d'|e d']; cbn.
    + destruct (get_moderator (content_type mo) d') as [moderator d''|e d''];
        cbn; [eauto|].
      case_decide; cbn; eauto.
    + case_decide; cbn; eauto.
  - case_decide; cbn; eauto.
Qed.

(** When the object, its [ModeratedObject] row and the policy of its type
    are found, the message given to the user is the one
    [get_moderation_message] computes from the row's status and reason
    and the policy's flag. *)
Theorem send_message_registered
    (model : string) (request : Request) (object_id : Z) (st : State)
    (obj : ModelInstance) (mo : ModeratedObject) (moderator : Moderator)
    (d1 : Database) :
  unmoderated_objects_get model object_id (db st) = Returns obj (db st) ->
  get_for_instance obj (db st) = Returns mo (db st) ->
  get_moderator (content_type mo) (db st) = Returns moderator d1 ->
  send_message model request object_id st
  = Returns tt
      {| db := d1;
         request_messages :=
           request_messages st
           ++ [(INFO,
                get_moderation_message (Some (moderation_status mo))
                                       (moderation_reason mo)
                                       (visible_until_rejected moderator))];
         trace := trace st |}.
Proof.
  intros Hobj Hmo Hmoderator.
  unfold send_message, message_user, add_message, try_except, mbind, ST_bind,
    lift_db, set_db.
  rewrite Hobj. cbn. rewrite Hmo. cbn. rewrite Hmoderator. reflexivity.
Qed.

(** When the policy lookup raises anything but
    [ModeratedObject.DoesNotExist], the handler does not apply: the
    exception escapes and the user gets no message. *)
Theorem send_message_policy_error
    (model : string) (request : Request) (object_id : Z) (st : State)
    (obj : ModelInstance) (mo : ModeratedObject) (e : exn) (d1 : Database) :
  unmoderated_objects_get model object_id (db st) = Returns obj (db st) ->
  get_for_instance obj (db st) = Returns mo (db st) ->
  get_moderator (content_type mo) (db st) = Raises e d1 ->
  e <> DoesNotExist ModeratedObject_model ->
  send_message model request object_id st
  = Raises e {| db := d1; request_messages := request_messages st;
                trace := trace st |}.
Proof.
  intros Hobj Hmo Hmoderator He.
  unfold send_message, try_except, mbind, ST_bind, lift_db, set_db.
  rewrite Hobj. cbn. rewrite Hmo. cbn. rewrite Hmoderator. cbn.
  by rewrite decide_False.
Qed.

(** The flag is read for a Pending status only, and the reason for a
    Rejected status only: away from them the message does not depend on
    it. *)
Theorem get_moderation_message_reads
    (status : option Z) (reason reason' : option string)
    (visible visible' : bool) :
  (status <> Some MODERATION_STATUS_PENDING ->
   get_moderation_message status reason visible
   = get_moderation_message status reason visible')
  /\ (status <> Some MODERATION_STATUS_REJECTED ->
      get_moderation_message status reason visible
      = get_moderation_message status reason' visible).
Proof.
  unfold get_moderation_message. split; intros Hstatus.
  - by rewrite !(decide_False _ _ Hstatus).
  - case_decide; [done|]. by rewrite !(decide_False _ _ Hstatus).
Qed.

End MoreMessageProperties.

(** ** ModerationAdmin: get_form and change_view *)

Section ViewProperties.
Context `{ModerationConstants} `{ModelLayer}.
Import ModerationAdminViews.

(** The keyword arguments handed to the inherited [get_form]: every
    argument of the caller is kept, a [form] of the caller included; the
    moderated form of the object's class is supplied as [form] only when
    the caller gives none, an object is given and the integration is
    enabled; nothing else is added. *)
Theorem get_form_defaults_lookup
    (enabled : bool) (obj : option ModelInstance)
    (kwargs : gmap string KwArg) (key : string) :
  get_form_defaults enabled obj kwargs !! key
  = match kwargs !! key with
    | Some value => Some value
    | None =>
        match obj with
        | Some o =>
            if (enabled && bool_decide (key = "form"))%bool
            then Some (FormArg (get_moderated_object_form (model_class o)))
            else None
        | None => None
        end
    end.
Proof.
  unfold get_form_defaults, py_update.
  destruct obj as [o|], enabled; cbn;
    rewrite ?lookup_union, ?lookup_empty;
    destruct (kwargs !! key) as [value|]; try reflexivity.
  - by destruct (_ !! key).
  - case_bool_decide as Hkey.
    + subst key. by rewrite lookup_singleton_eq.
    + by rewrite lookup_singleton_ne.
Qed.

(** With the integration disabled the change view is the inherited one:
    no lookup is made and no message is given. With it enabled, an id
    the admin's model has no object for makes the view raise that
    model's [DoesNotExist]; the inherited view is not run. *)
Theorem change_view_integration
    {C} (super_change_view : Request -> Z -> C -> ST World Response)
    (model : string) (request : Request) (object_id : Z) (extra_context : C)
    (st : State) :
  change_view false super_change_view model request object_id extra_context st
  = lift_world (super_change_view request object_id extra_context) st
  /\ (model <> ModeratedObject_model ->
      ModerationAdmin.unmoderated_objects_get model object_id (db st)
      = Raises (DoesNotExist model) (db st) ->
      change_view true super_change_view model request object_id
                  extra_context st
      = Raises (DoesNotExist model) st).
Proof.
  split; [reflexivity|].
  intros Hmodel Hobj. unfold change_view, mbind, ST_bind.
  by rewrite (send_message_missing_object _ _ _ _ Hmodel Hobj).
Qed.

End ViewProperties.

(** ** RestrictedStatusFilterSpec.choices *)

Lemma py_str_int_inj (m n : Z) : py_str_int m = py_str_int n -> m = n.
Proof.
  unfold py_str_int. intros Hstr.
  assert (Hnorm : forall z, DecimalString.NilZero.int_of_string
                              (DecimalString.NilZero.string_of_int (Z.to_int z))
                            = Some (Z.to_int z)).
  { intros z. apply DecimalString.NilZero.isi; destruct z; cbn;
      try discriminate; intros Hnil; injection Hnil;
      apply DecimalPos.Unsigned.to_uint_nonnil. }
  apply DecimalZ.to_int_inj.
  assert (Hsome : Some (Z.to_int m) = Some (Z.to_int n))
    by (rewrite <- !Hnorm; by rewrite Hstr).
  by injection Hsome.
Qed.

Section FilterChoiceProperties.
Context `{ModerationConstants}.
Import RestrictedStatusFilter.

(** The filter offers All, Pending and Rejected, in this order. All is
    selected exactly when the request has no [moderation_status__exact];
    Pending and Rejected are selected exactly when that parameter is the
    decimal text of their status. With the two statuses distinct, at
    most one choice is selected. *)
Theorem choices_selected
    (get_query_string : gmap string Z -> list string -> string)
    (GET : gmap string string) :
  MODERATION_STATUS_PENDING <> MODERATION_STATUS_REJECTED ->
  map display (choices get_query_string (init GET))
  = ["All"; "Pending"; "Rejected"]
  /\ map selected (choices get_query_string (init GET))
     = match GET !! "moderation_status__exact" with
       | None => [true; false; false]
       | Some value =>
           [false;
            bool_decide (value = py_str_int MODERATION_STATUS_PENDING);
            bool_decide (value = py_str_int MODERATION_STATUS_REJECTED)]
       end
  /\ (length (List.filter selected (choices get_query_string (init GET)))
      <= 1)%nat.
Proof.
  intros Hdistinct.
  assert (Hselected :
    map selected (choices get_query_string (init GET))
    = match GET !! "moderation_status__exact" with
      | None => [true; false; false]
      | Some value =>
          [false;
           bool_decide (value = py_str_int MODERATION_STATUS_PENDING);
           bool_decide (value = py_str_int MODERATION_STATUS_REJECTED)]
      end).
  { unfold choices, init. cbn.
    destruct (GET !! "moderation_status__exact") as [value|]; cbn.
    - f_equal. f_equal; [|f_equal]; apply bool_decide_ext;
        split; congruence.
    - reflexivity. }
  split; [reflexivity|]. split; [exact Hselected|].
  assert (Hcount : forall cs : list Choice,
             length (List.filter selected cs)
             = length (List.filter id (map selected cs))).
  { induction cs as [|c cs IH]; [reflexivity|].
    cbn. unfold id at 1. destruct (selected c); cbn; by rewrite IH. }
  rewrite Hcount, Hselected.
  destruct (GET !! "moderation_status__exact") as [value|]; [|cbn; lia].
  do 2 case_bool_decide; cbn; try lia.
  exfalso. apply Hdistinct, py_str_int_inj. congruence.
Qed.

End FilterChoiceProperties.

(** ** ModeratedObjectAdmin: more on queryset and actions *)

Lemma exclude_sublist {A} (column : A -> Z) (value : Z) (qs : list A) :
  sublist (ModeratedObjectAdmin.exclude column value qs) qs.
Proof.
  unfold ModeratedObjectAdmin.exclude.
  induction qs as [|row qs IH]; cbn; [constructor|].
  destruct (negb _); by constructor.
Qed.

Lemma exclude_app {A} (column : A -> Z) (value : Z) (qs qs' : list A) :
  ModeratedObjectAdmin.exclude column value (qs ++ qs')
  = ModeratedObjectAdmin.exclude column value qs
    ++ ModeratedObjectAdmin.exclude column value qs'.
Proof. unfold ModeratedObjectAdmin.exclude. apply List.filter_app. Qed.

Lemma filter_fixed {A} (keep : A -> bool) (l : list A) :
  Forall (fun x => keep x = true) l -> List.filter keep l = l.
Proof.
  induction 1 as [|x l Hx _ IH]; [reflexivity|].
  cbn. by rewrite Hx, IH.
Qed.

Section MoreListingProperties.
Context `{ModerationConstants}.
Import ModeratedObjectAdmin.

Lemma queryset_rows (base : list ModeratedObject) :
  Forall (fun mo => moderation_status mo <> MODERATION_STATUS_APPROVED
                    /\ moderation_state mo <> MODERATION_DRAFT_STATE)
         (queryset base).
Proof.
  apply List.Forall_forall. intros mo Hmo.
  unfold queryset in Hmo.
  apply filter_In in Hmo as [Hmo Hstate].
  apply filter_In in Hmo as [_ Hstatus].
  rewrite negb_true_iff, bool_decide_eq_false in Hstate, Hstatus.
  done.
Qed.

(** The admin's queryset keeps the rows it lets through in the order of
    the inherited queryset, works row by row (it distributes over
    concatenation), and applying it to its own result changes nothing. *)
Theorem queryset_order_and_idempotence (base base' : list ModeratedObject) :
  sublist (queryset base) base
  /\ queryset (base ++ base') = queryset base ++ queryset base'
  /\ queryset (queryset base) = queryset base.
Proof.
  repeat apply conj.
  - unfold queryset. etrans; apply exclude_sublist.
  - unfold queryset. by rewrite !exclude_app.
  - pose proof (queryset_rows base) as Hall.
    unfold queryset at 1. unfold exclude.
    rewrite (filter_fixed _ (queryset base)).
    + apply filter_fixed. eapply Forall_impl; [exact Hall|].
      intros mo [_ Hstate]. cbn in *.
      by rewrite negb_true_iff, bool_decide_eq_false.
    + eapply Forall_impl; [exact Hall|].
      intros mo [Hstatus _]. cbn in *.
      by rewrite negb_true_iff, bool_decide_eq_false.
Qed.

End MoreListingProperties.

(** [get_actions] keeps every action other than [delete_selected] as the
    inherited table has it, and a table it has returned passes through
    it unchanged. *)
Theorem get_actions_keeps_other_actions
    {A} (inherited : gmap string A) (name : string) :
  name <> "delete_selected" ->
  exists actions,
    ModeratedObjectAdmin.get_actions inherited = Returns actions actions
    /\ actions !! name = inherited !! name
    /\ ModeratedObjectAdmin.get_actions actions = Returns actions actions.
Proof.
  intros Hname.
  assert (Hrun : forall table : gmap string A,
             ModeratedObjectAdmin.get_actions table
             = Returns (delete "delete_selected" table)
                       (delete "delete_selected" table)).
  { intros table.
    unfold ModeratedObjectAdmin.get_actions, mbind, ST_bind, try_except,
      py_delitem, get_state.
    destruct (table !! "delete_selected") eqn:Hlookup; cbn; [done|].
    by rewrite delete_id. }
  exists (delete "delete_selected" inherited).
  repeat apply conj.
  - apply Hrun.
  - by apply lookup_delete_ne.
  - rewrite Hrun. by rewrite delete_delete_eq.
Qed.

(** ** The bulk actions on a queryset in two parts *)

Lemma for_each_app {S A} (body : A -> ST S unit) (xs ys : list A) (s : S) :
  for_each (xs ++ ys) body s
  = match for_each xs body s with
    | Returns _ s' => for_each ys body s'
    | Raises e s' => Raises e s'
    end.
Proof.
  revert s. induction xs as [|x xs IH]; intros s; [reflexivity|].
  cbn. unfold mbind, ST_bind.
  destruct (body x s) as [[] s'|e s']; [apply IH | reflexivity].
Qed.

Section BulkCompositionProperties.
Context `{ModelLayer}.

(** A bulk action on an empty queryset does nothing, and on a queryset in
    two parts it is the action on the first part followed, if that
    returned, by the action on the second; a failure in the first part
    leaves the second part unvisited. *)
Theorem bulk_actions_compose
    (request : Request) (first second : list ModeratedObject) (st : State) :
  (approve_objects request [] st = Returns tt st
   /\ reject_objects request [] st = Returns tt st
   /\ set_objects_as_pending request [] st = Returns tt st)
  /\ approve_objects request (first ++ second) st
     = match approve_objects request first st with
       | Returns _ st' => approve_objects request second st'
       | Raises e st' => Raises e st'
       end
  /\ reject_objects request (first ++ second) st
     = match reject_objects request first st with
       | Returns _ st' => reject_objects request second st'
       | Raises e st' => Raises e st'
       end
  /\ set_objects_as_pending request (first ++ second) st
     = match set_objects_as_pending request first st with
       | Returns _ st' => set_objects_as_pending request second st'
       | Raises e st' => Raises e st'
       end.
Proof.
  repeat apply conj; try reflexivity; apply for_each_app.
Qed.

End BulkCompositionProperties.

(** ** ModeratedObjectAdmin.change_view: lookups that fail *)

Section ChangeViewErrorProperties.
Context `{ModelLayer} `{AdminFramework} `{InheritedAdmin}.
Import ModeratedObjectAdmin.

(** For an id no [ModeratedObject] row has, the change view raises
    [ModeratedObject.DoesNotExist] and leaves the state as it was: no
    call is noted, no message is added. *)
Theorem change_view_missing_row
    (request : Request) (object_id : Z) (st : State) :
  Forall (fun mo => pk mo <> object_id) (moderated_objects (db st)) ->
  change_view request object_id st
  = Raises (DoesNotExist ModeratedObject_model) st.
Proof.
  intros Hnone.
  unfold change_view, mbind, ST_bind, lift_db, objects_get.
  rewrite manager_get_none.
  - by destruct st.
  - eapply Forall_impl; [exact Hnone|].
    intros mo Hmo. by apply bool_decide_eq_false.
Qed.

(** When the policy lookup or the fetch of the live object raises, the
    view raises the same exception before it compares anything or acts:
    the trace and the messages are as they were. *)
Theorem change_view_lookup_errors
    (request : Request) (object_id : Z) (st : State)
    (mo : ModeratedObject) (moderator : Moderator) (e : exn)
    (d1 d2 : Database) :
  objects_get object_id (db st) = Returns mo (db st) ->
  (get_moderator (model_class (changed_object mo)) (db st) = Raises e d1 ->
   change_view request object_id st = Raises e (set_db d1 st))
  /\ (get_moderator (model_class (changed_object mo)) (db st)
      = Returns moderator d1 ->
      get_object_for_this_type mo d1 = Raises e d2 ->
      change_view request object_id st = Raises e (set_db d2 st)).
Proof.
  intros Hmo. split.
  - intros Hmoderator.
    unfold change_view, mbind, ST_bind, lift_db.
    rewrite Hmo. cbn. by rewrite Hmoderator.
  - intros Hmoderator Hlive.
    unfold change_view, mbind, ST_bind, lift_db.
    rewrite Hmo. cbn. rewrite Hmoderator. cbn.
    destruct (visible_until_rejected moderator); cbn; by rewrite Hlive.
Qed.

End ChangeViewErrorProperties.

(** ** ModeratedObjectAdmin.change_view: the POST block *)

Section ChangeViewPostProperties.
Context `{ModelLayer} `{AdminFramework} `{InheritedAdmin}.
Import ModeratedObjectAdmin.

(** A request with an empty POST, or whose form is not valid, or whose
    valid form comes with neither [approve] nor [reject], makes no
    method call and adds no message: the view compares the two objects
    and answers with the inherited view. *)
Theorem change_view_without_action
    (request : Request) (object_id : Z) (st : State)
    (mo : ModeratedObject) (moderator : Moderator) (live : ModelInstance)
    (d1 d2 : Database) :
  objects_get object_id (db st) = Returns mo (db st) ->
  get_moderator (model_class (changed_object mo)) (db st)
  = Returns moderator d1 ->
  get_object_for_this_type mo d1 = Returns live d2 ->
  POST request = ∅
  \/ admin_form_clean request mo = None
  \/ (exists cleaned_data reason,
        admin_form_clean request mo = Some cleaned_data
        /\ cleaned_data !! "moderation_reason" = Some reason
        /\ POST request !! "approve" = None
        /\ POST request !! "reject" = None) ->
  let old_object :=
    if visible_until_rejected moderator then changed_object mo else live in
  let new_object :=
    if visible_until_rejected moderator then live else changed_object mo in
  change_view request object_id st
  = lift_world
      (ModelAdmin_change_view request object_id
         (build_extra_context (changed_object mo) old_object new_object
            (map snd (get_changes_between_models
                        old_object new_object (fields_exclude moderator)))))
      {| db := d2; request_messages := request_messages st;
         trace := trace st
                  ++ [DiffCall old_object new_object
                               (fields_exclude moderator)] |}.
Proof.
  intros Hmo Hmoderator Hlive Hcase old_object new_object.
  rewrite (change_view_after_lookups _ _ _ _ _ _ _ _ Hmo Hmoderator Hlive).
  cbv zeta. fold old_object new_object.
  unfold change_view_post.
  destruct Hcase as [Hempty | [Hinvalid | Hnobutton]].
  - by rewrite bool_decide_eq_false_2 by (by intros Hne).
  - case_bool_decide; [|done]. by rewrite Hinvalid.
  - destruct Hnobutton as (cleaned_data & reason & Hform & Hreason
                           & Happrove & Hreject).
    case_bool_decide; [|done].
    rewrite Hform. unfold mbind, ST_bind, py_getitem. rewrite Hreason. cbn.
    rewrite !bool_decide_eq_false_2; [done| |].
    + rewrite Hreject. by intros [? ?].
    + rewrite Happrove. by intros [? ?].
Qed.

(** A valid POST that names [approve] calls [approve] and nothing else,
    whether or not it also names [reject]. If [approve] returns, the
    view adds its message and redirects; if it raises, the view raises
    the same exception, adds no message and does not reach the
    inherited view. *)
Theorem change_view_approve_outcome
    (request : Request) (object_id : Z) (st : State)
    (mo : ModeratedObject) (moderator : Moderator) (live : ModelInstance)
    (d1 d2 : Database) (cleaned_data : gmap string string) (reason : string) :
  objects_get object_id (db st) = Returns mo (db st) ->
  get_moderator (model_class (changed_object mo)) (db st)
  = Returns moderator d1 ->
  get_object_for_this_type mo d1 = Returns live d2 ->
  POST request <> ∅ ->
  admin_form_clean request mo = Some cleaned_data ->
  cleaned_data !! "moderation_reason" = Some reason ->
  is_Some (POST request !! "approve") ->
  let old_object :=
    if visible_until_rejected moderator then changed_object mo else live in
  let new_object :=
    if visible_until_rejected moderator then live else changed_object mo in
  let noted :=
    trace st
    ++ [DiffCall old_object new_object (fields_exclude moderator);
        MethodCall Approve mo (user request) (Some reason)] in
  change_view request object_id st
  = match approve mo (user request) (Some reason) d2 with
    | Returns text d3 =>
        Returns (response_change request new_object)
          {| db := d3;
             request_messages := request_messages st ++ [(INFO, text)];
             trace := noted |}
    | Raises e d3 =>
        Raises e {| db := d3; request_messages := request_messages st;
                    trace := noted |}
    end.
Proof.
  intros Hmo Hmoderator Hlive Hpost Hform Hreason Happrove
    old_object new_object noted.
  rewrite (change_view_after_lookups _ _ _ _ _ _ _ _ Hmo Hmoderator Hlive).
  cbv zeta. fold old_object new_object.
  unfold change_view_post.
  rewrite bool_decide_eq_true_2 by exact Hpost.
  rewrite Hform. unfold mbind, ST_bind, py_getitem. rewrite Hreason. cbn.
  rewrite bool_decide_eq_true_2 by exact Happrove.
  rewrite call_method_outcome. cbn. unfold noted.
  destruct (approve mo (user request) (Some reason) d2); cbn;
    by rewrite <- app_assoc.
Qed.

(** A valid POST that names [reject] only, and whose [reject] raises:
    the view raises the same exception, having added no message; the
    inherited view is not reached. *)
Theorem change_view_reject_raises
    (request : Request) (object_id : Z) (st : State)
    (mo : ModeratedObject) (moderator : Moderator) (live : ModelInstance)
    (d1 d2 d3 : Database) (cleaned_data : gmap string string)
    (reason : string) (e : exn) :
  objects_get object_id (db st) = Returns mo (db st) ->
  get_moderator (model_class (changed_object mo)) (db st)
  = Returns moderator d1 ->
  get_object_for_this_type mo d1 = Returns live d2 ->
  POST request <> ∅ ->
  admin_form_clean request mo = Some cleaned_data ->
  cleaned_data !! "moderation_reason" = Some reason ->
  POST request !! "approve" = None ->
  is_Some (POST request !! "reject") ->
  reject mo (user request) (Some reason) d2 = Raises e d3 ->
  change_view request object_id st
  = Raises e
      {| db := d3; request_messages := request_messages st;
         trace :=
           trace st
           ++ [DiffCall
                 (if visible_until_rejected moderator
                  then changed_object mo else live)
                 (if visible_until_rejected moderator
                  then live else changed_object mo)
                 (fields_exclude moderator);
               MethodCall Reject mo (user request) (Some reason)] |}.
Proof.
  intros Hmo Hmoderator Hlive Hpost Hform Hreason Happrove Hreject Hraises.
  rewrite (change_view_after_lookups _ _ _ _ _ _ _ _ Hmo Hmoderator Hlive).
  cbv zeta. unfold change_view_post.
  rewrite bool_decide_eq_true_2 by exact Hpost.
  rewrite Hform. unfold mbind, ST_bind, py_getitem. rewrite Hreason. cbn.
  rewrite bool_decide_eq_false_2 by (rewrite Happrove; by intros [? ?]).
  rewrite bool_decide_eq_true_2 by exact Hreject.
  rewrite call_method_outcome. cbn. rewrite Hraises. cbn.
  by rewrite <- app_assoc.
Qed.

(** A valid form whose cleaned data has no [moderation_reason] makes the
    view raise [KeyError] before it looks at the buttons: no method is
    called. *)
Theorem change_view_missing_reason
    (request : Request) (object_id : Z) (st : State)
    (mo : ModeratedObject) (moderator : Moderator) (live : ModelInstance)
    (d1 d2 : Database) (cleaned_data : gmap string string) :
  objects_get object_id (db st) = Returns mo (db st) ->
  get_moderator (model_class (changed_object mo)) (db st)
  = Returns moderator d1 ->
  get_object_for_this_type mo d1 = Returns live d2 ->
  POST request <> ∅ ->
  admin_form_clean request mo = Some cleaned_data ->
  cleaned_data !! "moderation_reason" = None ->
  change_view request object_id st
  = Raises (KeyError "moderation_reason")
      {| db := d2; request_messages := request_messages st;
         trace :=
           trace st
           ++ [DiffCall
                 (if visible_until_rejected moderator
                  then changed_object mo else live)
                 (if visible_until_rejected moderator
                  then live else changed_object mo)
                 (fields_exclude moderator)] |}.
Proof.
  intros Hmo Hmoderator Hlive Hpost Hform Hreason.
  rewrite (change_view_after_lookups _ _ _ _ _ _ _ _ Hmo Hmoderator Hlive).
  cbv zeta. unfold change_view_post.
  rewrite bool_decide_eq_true_2 by exact Hpost.
  rewrite Hform. unfold mbind, ST_bind, py_getitem. by rewrite Hreason.
Qed.

End ChangeViewPostProperties.

(** ** ModeratedObjectAdmin.change_view: what one request can call *)

Section ChangeViewCallProperties.
Context `{ModelLayer} `{AdminFramework} `{InheritedAdmin}.
Import ModeratedObjectAdmin.

Lemma change_view_post_calls (request : Request) (mo : ModeratedObject)
    (new_object : ModelInstance) (st : State) :
  exists calls,
    trace (final_state (change_view_post request mo new_object st))
    = trace st ++ calls
    /\ (length calls <= 1)%nat
    /\ Forall (fun c => exists name reason,
                 c = MethodCall name mo (user request) (Some reason)
                 /\ name <> SetAsPending
                 /\ exists cleaned_data,
                      admin_form_clean request mo = Some cleaned_data
                      /\ cleaned_data !! "moderation_reason" = Some reason)
              calls.
Proof.
  assert (Hnone : exists calls : list Call,
             trace st = trace st ++ calls
             /\ (length calls <= 1)%nat
             /\ Forall (fun c => exists name reason,
                          c = MethodCall name mo (user request) (Some reason)
                          /\ name <> SetAsPending
                          /\ exists cleaned_data,
                               admin_form_clean request mo = Some cleaned_data
                               /\ cleaned_data !! "moderation_reason"
                                  = Some reason)
                       calls).
  { exists []. rewrite app_nil_r. repeat split; [cbn; lia | constructor]. }
  unfold change_view_post.
  case_bool_decide; [|exact Hnone].
  destruct (admin_form_clean request mo) as [cleaned_data|] eqn:Hform;
    [|exact Hnone].
  unfold mbind, ST_bind, py_getitem.
  destruct (cleaned_data !! "moderation_reason") as [reason|] eqn:Hreason;
    [|exact Hnone].
  cbn. repeat case_bool_decide; try exact Hnone;
    rewrite call_method_outcome; cbn;
    match goal with
    | |- context [?t mo (user request) (Some reason) (db st)] =>
        destruct (t mo (user request) (Some reason) (db st))
    end; cbn;
    (eexists; split; [reflexivity|]; split; [cbn; lia|];
     constructor; [|constructor];
     eexists _, reason; split; [reflexivity|];
     split; [discriminate | eauto]).
Qed.

(** Once its lookups have succeeded, the view compares the objects once
    and then calls at most one method: [approve] or [reject], never
    [set_as_pending], on the row it looked up, in the name of the
    request's user and with the [moderation_reason] of the cleaned
    form. *)
Theorem change_view_calls
    (request : Request) (object_id : Z) (st : State)
    (mo : ModeratedObject) (moderator : Moderator) (live : ModelInstance)
    (d1 d2 : Database) :
  objects_get object_id (db st) = Returns mo (db st) ->
  get_moderator (model_class (changed_object mo)) (db st)
  = Returns moderator d1 ->
  get_object_for_this_type mo d1 = Returns live d2 ->
  exists diff calls,
    trace (final_state (change_view request object_id st))
    = trace st ++ diff :: calls
    /\ ~ is_method_call diff
    /\ (length calls <= 1)%nat
    /\ Forall (fun c => exists name reason,
                 c = MethodCall name mo (user request) (Some reason)
                 /\ name <> SetAsPending
                 /\ exists cleaned_data,
                      admin_form_clean request mo = Some cleaned_data
                      /\ cleaned_data !! "moderation_reason" = Some reason)
              calls.
Proof.
  intros Hmo Hmoderator Hlive.
  rewrite (change_view_after_lookups _ _ _ _ _ _ _ _ Hmo Hmoderator Hlive).
  cbv zeta.
  match goal with
  | |- context [change_view_post ?r ?m ?n ?s] =>
      destruct (change_view_post_calls r m n s)
        as (calls & Htrace & Hlen & Hcalls);
      destruct (change_view_post r m n s) as [[response|] st'|e st']
  end; cbn in Htrace; eexists _, calls;
    (split; [|split; [|split; [exact Hlen | exact Hcalls]]]);
    rewrite ?lift_world_trace; cbn; rewrite ?Htrace, <- ?app_assoc;
    try reflexivity; by intros [].
Qed.

End ChangeViewCallProperties.

(** ** The context of the change form *)

Lemma substring_prefix (m : nat) (s : string) :
  String.length (substring 0 m s) = Nat.min m (String.length s)
  /\ exists rest, s = substring 0 m s +:+ rest.
Proof.
  revert s. induction m as [|m IH]; intros s.
  - destruct s; (split; [reflexivity|]); eexists; reflexivity.
  - destruct s as [|c s].
    + split; [reflexivity|]. by exists "".
    + destruct (IH s) as [Hlen [rest Hrest]].
      split.
      * change (S (String.length (substring 0 m s))
                = S (Nat.min m (String.length s))).
        by rewrite Hlen.
      * exists rest.
        change (String c s = String c (substring 0 m s +:+ rest)).
        by rewrite <- Hrest.
Qed.

Section ExtraContextProperties.
Context `{AdminFramework}.
Import ModeratedObjectAdmin.

(** The [django_version] of the change form's context is the first three
    characters of the framework's version, or the whole of a shorter
    one; the objects and the changes are passed through as given, and
    the admin URL is that of the changed object's own change page, or
    [None] when it cannot be reversed. *)
Theorem build_extra_context_fields
    (changed old new : ModelInstance) (diff : list Change) :
  let context := build_extra_context changed old new diff in
  String.length (django_version context)
  = Nat.min 3 (String.length get_version)
  /\ (exists rest, get_version = django_version context +:+ rest)
  /\ changes context = diff
  /\ old_object context = old
  /\ new_object context = new
  /\ object_admin_url context
     = reverse ("admin:" +:+ fst (get_for_model (model_class changed))
                +:+ "_" +:+ snd (get_for_model (model_class changed))
                +:+ "_change")
               (instance_pk changed).
Proof.
  cbv zeta. unfold build_extra_context. cbn.
  destruct (substring_prefix 3 get_version) as [Hlen Hrest].
  repeat apply conj; done.
Qed.

End ExtraContextProperties.

(** * The further properties on the example site *)

Lemma send_message_registered_witness :
  @ModerationAdmin.send_message Site.constants (Site.model_layer false)
    "blog.Entry" (Site.get "staff") 1 Site.state
  = Returns tt
      {| db := Site.database;
         request_messages :=
           [(INFO,
             Some "Object is not viewable on site, it will be visible if moderator accepts it")];
         trace := [] |}.
Proof.
  apply (@send_message_registered Site.constants (Site.model_layer false)
           "blog.Entry" (Site.get "staff") 1 Site.state Site.entry_live
           Site.moderated_entry
           {| visible_until_rejected := false; fields_exclude := ["updated"] |}
           Site.database); reflexivity.
Defined.

Lemma send_message_policy_error_witness :
  @ModerationAdmin.send_message Site.constants Cases.unregistered_layer
    "blog.Entry" (Site.get "staff") 1 Site.state
  = Raises RegistrationError Site.state.
Proof.
  apply (@send_message_policy_error Site.constants Cases.unregistered_layer
           "blog.Entry" (Site.get "staff") 1 Site.state Site.entry_live
           Site.moderated_entry RegistrationError Site.database);
    try reflexivity.
  discriminate.
Defined.

Lemma get_moderation_message_reads_witness :
  @ModerationAdmin.get_moderation_message Site.constants
    (Some 1) (Some "spam") true
  = @ModerationAdmin.get_moderation_message Site.constants
      (Some 1) (Some "spam") false
  /\ @ModerationAdmin.get_moderation_message Site.constants
       (Some 2) (Some "spam") true
     = @ModerationAdmin.get_moderation_message Site.constants
         (Some 2) None true.
Proof.
  split.
  - apply (proj1 (@get_moderation_message_reads Site.constants
                    (Some 1) (Some "spam") None true false)).
    discriminate.
  - apply (proj2 (@get_moderation_message_reads Site.constants
                    (Some 2) (Some "spam") None true false)).
    discriminate.
Defined.

Lemma change_view_integration_witness :
  @ModerationAdminViews.change_view Site.constants (Site.model_layer false)
    true unit Cases.plain_view "blog.Page" (Site.get "staff") 6 tt Site.state
  = Raises (DoesNotExist "blog.Page") Site.state.
Proof.
  apply (proj2 (@change_view_integration Site.constants
                  (Site.model_layer false) unit Cases.plain_view "blog.Page"
                  (Site.get "staff") 6 tt Site.state)).
  - discriminate.
  - reflexivity.
Defined.

Lemma choices_selected_witness :
  map RestrictedStatusFilter.selected
      (@RestrictedStatusFilter.choices (fun _ _ => "?")
         (@RestrictedStatusFilter.init Site.constants
            {[ "moderation_status__exact" := "2" ]}))
  = [false; true; false].
Proof.
  assert (Hdistinct : @MODERATION_STATUS_PENDING Site.constants
                      <> @MODERATION_STATUS_REJECTED Site.constants)
    by (cbn; lia).
  destruct (@choices_selected Site.constants (fun _ _ => "?")
              {[ "moderation_status__exact" := "2" ]} Hdistinct)
    as (_ & Hselected & _).
  exact Hselected.
Defined.

Lemma get_actions_keeps_other_actions_witness :
  exists actions : gmap string nat,
    ModeratedObjectAdmin.get_actions
      ({[ "delete_selected" := 1%nat; "approve_objects" := 2%nat ]})
    = Returns actions actions
    /\ actions !! "approve_objects"
       = ({[ "delete_selected" := 1%nat; "approve_objects" := 2%nat ]}
            : gmap string nat) !! "approve_objects"
    /\ ModeratedObjectAdmin.get_actions actions = Returns actions actions.
Proof.
  apply (@get_actions_keeps_other_actions nat
           {[ "delete_selected" := 1%nat; "approve_objects" := 2%nat ]}
           "approve_objects").
  discriminate.
Defined.

Lemma change_view_missing_row_witness :
  @ModeratedObjectAdmin.change_view (Site.model_layer false) Site.framework
    Site.inherited (Site.get "moderator") 99 Site.state
  = Raises (DoesNotExist ModeratedObject_model) Site.state.
Proof.
  apply (@change_view_missing_row (Site.model_layer false) Site.framework
           Site.inherited (Site.get "moderator") 99 Site.state).
  repeat constructor; cbn; lia.
Defined.

Lemma change_view_lookup_errors_witness :
  @ModeratedObjectAdmin.change_view Cases.unregistered_layer Site.framework
    Site.inherited (Site.get "moderator") 7 Site.state
  = Raises RegistrationError Site.state.
Proof.
  apply (proj1 (@change_view_lookup_errors Cases.unregistered_layer
                  Site.framework Site.inherited (Site.get "moderator") 7
                  Site.state Site.moderated_entry
                  {| visible_until_rejected := false; fields_exclude := [] |}
                  RegistrationError Site.database Site.database eq_refl)).
  reflexivity.
Defined.

Lemma change_view_without_action_witness :
  @ModeratedObjectAdmin.change_view (Site.model_layer true) Site.framework
    Site.inherited (Site.get "moderator") 7 Site.state
  = Returns
      (TemplateResponse "moderation/moderate_object.html"
         {| changes := [("B", "A")];
            old_object := Site.entry_changed;
            new_object := Site.entry_live;
            django_version := "1.3";
            object_admin_url := None |})
      {| db := Site.database;
         request_messages := [];
         trace := [DiffCall Site.entry_changed Site.entry_live ["updated"]] |}.
Proof.
  rewrite (@change_view_without_action (Site.model_layer true) Site.framework
             Site.inherited (Site.get "moderator") 7 Site.state
             Site.moderated_entry
             {| visible_until_rejected := true; fields_exclude := ["updated"] |}
             Site.entry_live Site.database Site.database
             eq_refl eq_refl eq_refl (or_introl eq_refl)).
  reflexivity.
Defined.

Lemma change_view_approve_outcome_witness :
  @ModeratedObjectAdmin.change_view (Site.model_layer false) Site.framework
    Site.inherited
    {| user := "staff"; method := "POST";
       POST := {[ "approve" := "1"; "reject" := "1";
                  "moderation_reason" := "fine" ]} |}
    7 Site.state
  = Returns (HttpResponseRedirect "../../../")
      {| db := ModelsSpec.save
                 (ModelsSpec.moderate Site.moderated_entry 1 (Some "staff")
                                      (Some 200) (Some "fine"))
                 Site.database;
         request_messages := [(INFO, Some "Moderated: fine")];
         trace := [DiffCall Site.entry_live Site.entry_changed ["updated"];
                   MethodCall Approve Site.moderated_entry "staff"
                              (Some "fine")] |}.
Proof.
  apply (@change_view_approve_outcome (Site.model_layer false)
           Site.framework Site.inherited
           {| user := "staff"; method := "POST";
              POST := {[ "approve" := "1"; "reject" := "1";
                         "moderation_reason" := "fine" ]} |}
           7 Site.state Site.moderated_entry
           {| visible_until_rejected := false;
              fields_exclude := ["updated"] |}
           Site.entry_live Site.database Site.database
           {[ "moderation_reason" := "fine" ]} "fine");
    try reflexivity.
  - intros Hempty. apply (f_equal (fun m => m !! "approve")) in Hempty.
    vm_compute in Hempty. discriminate.
  - vm_compute. eauto.
Defined.

Lemma change_view_reject_raises_witness :
  @ModeratedObjectAdmin.change_view (Site.model_layer false) Site.framework
    Site.inherited (Site.post "moderator" "reject" "") 7 Site.state
  = Raises ValidationError
      {| db := Site.database;
         request_messages := [];
         trace := [DiffCall Site.entry_live Site.entry_changed ["updated"];
                   MethodCall Reject Site.moderated_entry "moderator"
                              (Some "")] |}.
Proof.
  apply (@change_view_reject_raises (Site.model_layer false) Site.framework
           Site.inherited (Site.post "moderator" "reject" "") 7 Site.state
           Site.moderated_entry
           {| visible_until_rejected := false; fields_exclude := ["updated"] |}
           Site.entry_live Site.database Site.database Site.database
           {[ "moderation_reason" := "" ]} "" ValidationError);
    try reflexivity.
  - vm_compute. discriminate.
  - vm_compute. eauto.
Defined.

Lemma change_view_missing_reason_witness :
  @ModeratedObjectAdmin.change_view (Site.model_layer false)
    Cases.bare_framework Cases.bare_inherited
    (Site.post "moderator" "approve" "fine") 7 Site.state
  = Raises (KeyError "moderation_reason")
      {| db := Site.database;
         request_messages := [];
         trace := [DiffCall Site.entry_live Site.entry_changed ["updated"]] |}.
Proof.
  apply (@change_view_missing_reason (Site.model_layer false)
           Cases.bare_framework Cases.bare_inherited
           (Site.post "moderator" "approve" "fine") 7 Site.state
           Site.moderated_entry
           {| visible_until_rejected := false; fields_exclude := ["updated"] |}
           Site.entry_live Site.database Site.database ∅);
    try reflexivity.
  vm_compute. discriminate.
Defined.

Lemma change_view_calls_witness :
  exists diff calls,
    trace (final_state
             (@ModeratedObjectAdmin.change_view (Site.model_layer false)
                Site.framework Site.inherited
                (Site.post "moderator" "reject" "spam") 7 Site.state))
    = trace Site.state ++ diff :: calls
    /\ ~ is_method_call diff
    /\ (length calls <= 1)%nat
    /\ Forall (fun c => exists name reason,
                 c = MethodCall name Site.moderated_entry
                                (user (Site.post "moderator" "reject" "spam"))
                                (Some reason)
                 /\ name <> SetAsPending
                 /\ exists cleaned_data,
                      @admin_form_clean Site.framework
                        (Site.post "moderator" "reject" "spam")
                        Site.moderated_entry = Some cleaned_data
                      /\ cleaned_data !! "moderation_reason" = Some reason)
              calls.
Proof.
  apply (@change_view_calls (Site.model_layer false) Site.framework
           Site.inherited (Site.post "moderator" "reject" "spam") 7
           Site.state Site.moderated_entry
           {| visible_until_rejected := false; fields_exclude := ["updated"] |}
           Site.entry_live Site.database Site.database);
    reflexivity.
Defined.

(** * The change view under Django's inherited view *)

Section ChangeViewDjangoProperties.
Context `{ModerationConstants} `{ModelLayer} `{AdminFramework}.
Import ModeratedObjectAdmin.


End ChangeViewDjangoProperties.

